(** * Simulacion IoT: a shallow embedding of [dispositivos_iot.py]

    The development follows the source file top-down:
    - Python's [float] values and the two library calls the sensors make
      ([random.uniform] and [round]), over exact rationals with the
      binary64 rounding written out;
    - the dynamically typed argument of [ActuadorLuz.ajustar_intensidad];
    - methods as computations over the state of [self], with the console
      output and a possible exception as part of the result;
    - the device classes and the monitoring loop over a shared object store.
*)

From Stdlib Require Import ZArith QArith Qround Qabs Qpower Qreduction Bool List Ascii String Lia Lqa.
From Stdlib Require Import DecimalString Permutation.
Import ListNotations.

Open Scope Z_scope.

(** ** Python floats *)

(** A binary64 value: a finite one is the rational it denotes (the sign of
    zero is not kept: no operation of the program observes it). *)
Inductive float : Type :=
| Fin (q : Q)
| Inf (negativo : bool)
| NaN.

Module Float.

Definition zero : float := Fin 0.

(** [floor (log2 q)] of a positive rational. *)
Definition Qlog2 (q : Q) : Z :=
  let c := Z.log2 (Qnum q) - Z.log2 (Zpos (Qden q)) in
  if Qle_bool (2 ^ c) q then c else c - 1.

(** Nearest integer, ties to the even one. *)
Definition redondeo_par (q : Q) : Z :=
  let f := Qfloor q in
  match (q - inject_Z f ?= 1 # 2)%Q with
  | Lt => f
  | Gt => f + 1
  | Eq => if Z.even f then f else f + 1
  end.

(** Exponent of the unit in the last place of a binary64 with 53 bits of
    precision; subnormals share the smallest exponent. *)
Definition exp_ulp (q : Q) : Z := Z.max (Qlog2 (Qabs q) - 52) (-1074).

(** Round to nearest, ties to even, on an unbounded exponent range. *)
Definition redondear (q : Q) : Q :=
  if Qeq_bool q 0 then 0%Q
  else let e := exp_ulp q in
       (inject_Z (redondeo_par (q / 2 ^ e)) * 2 ^ e)%Q.

(** The largest finite binary64, [(2^53 - 1) * 2^971]. *)
Definition max_float : Q := inject_Z ((2 ^ 53 - 1) * 2 ^ 971).

(** The binary64 nearest to a rational; past the largest finite value the
    result is an infinity. *)
Definition b64 (q : Q) : float :=
  let r := Qred (redondear q) in
  if Qle_bool (Qabs r) max_float then Fin r
  else Inf (negb (Qle_bool 0 r)).

Definition neg (a : float) : float :=
  match a with
  | Fin x => Fin (- x)
  | Inf s => Inf (negb s)
  | NaN => NaN
  end.

Definition add (a b : float) : float :=
  match a, b with
  | NaN, _ | _, NaN => NaN
  | Fin x, Fin y => b64 (x + y)
  | Inf s, Inf t => if Bool.eqb s t then Inf s else NaN
  | Inf s, Fin _ | Fin _, Inf s => Inf s
  end.

Definition sub (a b : float) : float := add a (neg b).

Definition negativoQ (x : Q) : bool := negb (Qle_bool 0 x).

Definition mul (a b : float) : float :=
  match a, b with
  | NaN, _ | _, NaN => NaN
  | Fin x, Fin y => b64 (x * y)
  | Inf s, Inf t => Inf (xorb s t)
  | Inf s, Fin y | Fin y, Inf s =>
      if Qeq_bool y 0 then NaN else Inf (xorb s (negativoQ y))
  end.

(** [a < b]; every comparison with a NaN is false. *)
Definition ltb (a b : float) : bool :=
  match a, b with
  | NaN, _ | _, NaN => false
  | Fin x, Fin y => negb (Qle_bool y x)
  | Fin _, Inf s => negb s
  | Inf s, Fin _ => s
  | Inf s, Inf t => s && negb t
  end.

Definition gtb (a b : float) : bool := ltb b a.

Definition leb (a b : float) : bool :=
  match a, b with
  | NaN, _ | _, NaN => false
  | Fin x, Fin y => Qle_bool x y
  | Fin _, Inf s => negb s
  | Inf s, Fin _ => s
  | Inf s, Inf t => s || negb t
  end.

(** [round(x, 2)]: the exact value is rounded to two decimals, ties to
    even, and the decimal is converted back to the nearest binary64;
    infinities and NaN are returned as they are. *)
Definition round2 (x : float) : float :=
  match x with
  | Fin q => b64 (inject_Z (redondeo_par (q * 100)) / 100)
  | _ => x
  end.

End Float.

Declare Scope float_scope.
Delimit Scope float_scope with float.
Bind Scope float_scope with float.
Infix "+" := Float.add : float_scope.
Infix "-" := Float.sub : float_scope.
Infix "*" := Float.mul : float_scope.
Infix ">?" := Float.gtb (at level 70, no associativity) : float_scope.

(** ** Python values and exceptions *)

(** The values an untyped caller can hand to a method. *)
Inductive pyval : Type :=
| PyInt (z : Z)
| PyBool (b : bool)
| PyFloat (f : float)
| PyStr (s : string)
| PyNone.

Inductive excepcion : Type :=
| TypeError
| ValueError
| OverflowError.

Inductive resultado (A : Type) : Type :=
| Normal (a : A)
| Lanzada (e : excepcion).
Arguments Normal {A} a.
Arguments Lanzada {A} e.

(** A computation over a state [S]: how it ends (normally with a value, or
    with an exception), the state it leaves, and the lines it printed. *)
Definition Py (S A : Type) : Type := S -> resultado A * S * list string.

Module PyM.

Definition ret {S A} (a : A) : Py S A := fun s => (Normal a, s, []).

Definition bind {S A B} (m : Py S A) (k : A -> Py S B) : Py S B :=
  fun s =>
    match m s with
    | (Normal a, s1, o1) =>
        let '(r, s2, o2) := k a s1 in (r, s2, o1 ++ o2)
    | (Lanzada e, s1, o1) => (Lanzada e, s1, o1)
    end.

Definition raise {S A} (e : excepcion) : Py S A :=
  fun s => (Lanzada e, s, []).

Definition print {S} (linea : string) : Py S unit :=
  fun s => (Normal tt, s, [linea]).

Definition gets {S A} (f : S -> A) : Py S A := fun s => (Normal (f s), s, []).

Definition modify {S} (f : S -> S) : Py S unit :=
  fun s => (Normal tt, f s, []).

(** Run a computation on a part of the state. *)
Definition zoom {S T A} (get : T -> S) (set : S -> T -> T) (m : Py S A)
  : Py T A :=
  fun t => let '(r, s, o) := m (get t) in (r, set s t, o).

(** [for x in xs: cuerpo x] *)
Fixpoint for_ {S X} (xs : list X) (cuerpo : X -> Py S unit) : Py S unit :=
  match xs with
  | [] => ret tt
  | x :: xs' => bind (cuerpo x) (fun _ => for_ xs' cuerpo)
  end.

Definition valor {A S} (x : resultado A * S * list string) : resultado A :=
  fst (fst x).
Definition estado_final {A S} (x : resultado A * S * list string) : S :=
  snd (fst x).
Definition salida {A S} (x : resultado A * S * list string) : list string :=
  snd x.

End PyM.

Declare Scope py_scope.
Delimit Scope py_scope with py.
Notation "x <- m ;; k" := (PyM.bind m (fun x => k))
  (at level 61, m at next level, right associativity) : py_scope.
Notation "m ;; k" := (PyM.bind m (fun _ => k))
  (at level 61, right associativity) : py_scope.

Open Scope string_scope.

Module Builtins.

Definition str_int (z : Z) : string := NilZero.string_of_int (Z.to_int z).

Definition str_bool (b : bool) : string := if b then "True" else "False".

Section Formato.
(** [repr] of a float, the shortest decimal that reads back as the same
    binary64, is the interpreter's. *)
Variable repr_float : float -> string.

(** What an f-string puts in place of [{v}]. *)
Definition str (v : pyval) : string :=
  match v with
  | PyInt z => str_int z
  | PyBool b => str_bool b
  | PyFloat f => repr_float f
  | PyStr s => s
  | PyNone => "None"
  end.
End Formato.

(** [isinstance(v, int)]: [bool] is a subclass of [int]. *)
Definition isinstance_int (v : pyval) : bool :=
  match v with
  | PyInt _ | PyBool _ => true
  | _ => false
  end.

(** The integer a value of class [int] stands for. *)
Definition int_de (v : pyval) : option Z :=
  match v with
  | PyInt z => Some z
  | PyBool b => Some (if b then 1 else 0)
  | _ => None
  end.

Definition float_de (v : pyval) : option float :=
  match v with
  | PyInt z => Some (Fin (inject_Z z))
  | PyBool b => Some (Fin (if b then 1 else 0)%Q)
  | PyFloat f => Some f
  | _ => None
  end.

(** [a <= b]: numbers compare by value, anything else raises. *)
Definition le {S} (a b : pyval) : Py S bool :=
  match int_de a, int_de b with
  | Some x, Some y => PyM.ret (x <=? y)%Z
  | _, _ =>
      match float_de a, float_de b with
      | Some x, Some y => PyM.ret (Float.leb x y)
      | _, _ => PyM.raise TypeError
      end
  end.

(** [a == b] on the values above. *)
Definition eq (a b : pyval) : bool :=
  match int_de a, int_de b with
  | Some x, Some y => (x =? y)%Z
  | _, _ =>
      match a, b with
      | PyStr s, PyStr t => String.eqb s t
      | PyNone, PyNone => true
      | _, _ =>
          match float_de a, float_de b with
          | Some (Fin x), Some (Fin y) => Qeq_bool x y
          | Some (Inf s), Some (Inf t) => Bool.eqb s t
          | _, _ => false
          end
      end
  end.

(** [time.sleep(secs)]: stops the program for a while and changes nothing;
    a negative or NaN length is a [ValueError], an infinite one an
    [OverflowError]. *)
Definition sleep {S} (secs : float) : Py S unit :=
  match secs with
  | Fin q => if Qle_bool 0 q then PyM.ret tt else PyM.raise ValueError
  | Inf true => PyM.raise ValueError
  | Inf false => PyM.raise OverflowError
  | NaN => PyM.raise ValueError
  end.

End Builtins.

(** ** The [random] module *)

Module Random.

(** The generator is an input of the model: the raw words it will hand
    out, in order. *)
Definition rng : Type := nat -> Z.

(** [random.random()]: a 53-bit integer over [2^53], in [[0, 1)]. *)
Definition random : Py rng float :=
  fun g => (Normal (Fin (inject_Z (g 0%nat mod 2 ^ 53) / inject_Z (2 ^ 53))),
            (fun n => g (S n)), []).

(** [random.uniform(a, b)] is [a + (b - a) * random()]. *)
Definition uniform (a b : float) : Py rng float :=
  (r <- random ;; PyM.ret (a + (b - a) * r)%float)%py.

End Random.

(** ** The device classes *)

Definition nl : string := String "010"%char EmptyString.

Module DispositivoIoT.

Record t : Type := { id_dispositivo : string; estado : bool }.

Definition __init__ (id : string) : t :=
  {| id_dispositivo := id; estado := false |}.

Definition set_estado (e : bool) (self : t) : t :=
  {| id_dispositivo := id_dispositivo self; estado := e |}.

Definition encender : Py t unit :=
  (PyM.modify (set_estado true) ;;
   i <- PyM.gets id_dispositivo ;;
   PyM.print ("[INFO] " ++ i ++ " encendido."))%py.

Definition apagar : Py t unit :=
  (PyM.modify (set_estado false) ;;
   i <- PyM.gets id_dispositivo ;;
   PyM.print ("[INFO] " ++ i ++ " apagado."))%py.

(** [clase] is [self.__class__.__name__], which the caller's class fixes. *)
Definition mostrar_datos (clase : string) : Py t unit :=
  (e <- PyM.gets estado ;;
   let estado_str := if e then "Encendido" else "Apagado" in
   i <- PyM.gets id_dispositivo ;;
   PyM.print ("[" ++ clase ++ "] ID: " ++ i ++ " | Estado: " ++ estado_str))%py.

End DispositivoIoT.

Module SensorTemperatura.

Record t : Type := { base : DispositivoIoT.t; temperatura : float }.

Definition set_base (b : DispositivoIoT.t) (self : t) : t :=
  {| base := b; temperatura := temperatura self |}.
Definition set_temperatura (x : float) (self : t) : t :=
  {| base := base self; temperatura := x |}.

(** A method of the base class, run on this object. *)
Definition super {A} (m : Py DispositivoIoT.t A) : Py t A :=
  PyM.zoom base set_base m.

Definition __init__ (id : string) : t :=
  {| base := DispositivoIoT.__init__ id; temperatura := Float.zero |}.

Definition self_ {A} (m : Py t A) : Py (Random.rng * t) A :=
  PyM.zoom snd (fun s p => (fst p, s)) m.
Definition random_ {A} (m : Py Random.rng A) : Py (Random.rng * t) A :=
  PyM.zoom fst (fun g p => (g, snd p)) m.

(** The state is the module-level generator together with [self]. *)
Definition leer_temperatura : Py (Random.rng * t) float :=
  (e <- self_ (super (PyM.gets DispositivoIoT.estado)) ;;
   (if e : bool
    then x <- random_ (Random.uniform (Fin 20) (Fin 40)) ;;
         self_ (PyM.modify (set_temperatura (Float.round2 x)))
    else self_ (PyM.modify (set_temperatura Float.zero))) ;;
   self_ (PyM.gets temperatura))%py.

Section Formato.
Variable repr_float : float -> string.

Definition mostrar_datos : Py t unit :=
  (super (DispositivoIoT.mostrar_datos "SensorTemperatura") ;;
   x <- PyM.gets temperatura ;;
   PyM.print ("   • Temperatura actual: " ++ repr_float x ++ " °C" ++ nl))%py.
End Formato.

End SensorTemperatura.

Module SensorHumedad.

Record t : Type := { base : DispositivoIoT.t; humedad : float }.

Definition set_base (b : DispositivoIoT.t) (self : t) : t :=
  {| base := b; humedad := humedad self |}.
Definition set_humedad (x : float) (self : t) : t :=
  {| base := base self; humedad := x |}.

Definition super {A} (m : Py DispositivoIoT.t A) : Py t A :=
  PyM.zoom base set_base m.

Definition __init__ (id : string) : t :=
  {| base := DispositivoIoT.__init__ id; humedad := Float.zero |}.

Definition self_ {A} (m : Py t A) : Py (Random.rng * t) A :=
  PyM.zoom snd (fun s p => (fst p, s)) m.
Definition random_ {A} (m : Py Random.rng A) : Py (Random.rng * t) A :=
  PyM.zoom fst (fun g p => (g, snd p)) m.

Definition leer_humedad : Py (Random.rng * t) float :=
  (e <- self_ (super (PyM.gets DispositivoIoT.estado)) ;;
   (if e : bool
    then x <- random_ (Random.uniform (Fin 30) (Fin 90)) ;;
         self_ (PyM.modify (set_humedad (Float.round2 x)))
    else self_ (PyM.modify (set_humedad Float.zero))) ;;
   self_ (PyM.gets humedad))%py.

Section Formato.
Variable repr_float : float -> string.

Definition mostrar_datos : Py t unit :=
  (super (DispositivoIoT.mostrar_datos "SensorHumedad") ;;
   x <- PyM.gets humedad ;;
   PyM.print ("   • Humedad actual: " ++ repr_float x ++ " %" ++ nl))%py.
End Formato.

End SensorHumedad.

Module ActuadorLuz.

(** [intensidad] holds the object that was assigned, not a copy of its
    integer value: after [ajustar_intensidad(True)] it is [True]. *)
Record t : Type := { base : DispositivoIoT.t; intensidad : pyval }.

Definition set_base (b : DispositivoIoT.t) (self : t) : t :=
  {| base := b; intensidad := intensidad self |}.
Definition set_intensidad (v : pyval) (self : t) : t :=
  {| base := base self; intensidad := v |}.

Definition super {A} (m : Py DispositivoIoT.t A) : Py t A :=
  PyM.zoom base set_base m.

Definition __init__ (id : string) : t :=
  {| base := DispositivoIoT.__init__ id; intensidad := PyInt 0 |}.

Section Formato.
Variable repr_float : float -> string.

(** The two early [return]s are the first two branches. *)
Definition ajustar_intensidad (valor : pyval) : Py t unit :=
  (e <- super (PyM.gets DispositivoIoT.estado) ;;
   if negb e then
     i <- super (PyM.gets DispositivoIoT.id_dispositivo) ;;
     PyM.print ("[ADVERTENCIA] " ++ i
                ++ " está apagado; no se puede ajustar intensidad.")
   else if negb (Builtins.isinstance_int valor) then
     PyM.print "[ERROR] La intensidad debe ser un entero (0-100)."
   else
     inf <- Builtins.le (PyInt 0) valor ;;
     en_rango <- (if inf : bool then Builtins.le valor (PyInt 100)
                  else PyM.ret false) ;;
     if en_rango : bool then
       PyM.modify (set_intensidad valor) ;;
       i <- super (PyM.gets DispositivoIoT.id_dispositivo) ;;
       PyM.print ("[INFO] Intensidad de " ++ i ++ " ajustada a "
                  ++ Builtins.str repr_float valor ++ "%")
     else
       PyM.print "[ERROR] Valor fuera de rango (0-100). No se aplica cambio."
  )%py.

Definition mostrar_datos : Py t unit :=
  (super (DispositivoIoT.mostrar_datos "ActuadorLuz") ;;
   v <- PyM.gets intensidad ;;
   PyM.print ("   • Intensidad actual: " ++ Builtins.str repr_float v
              ++ " %" ++ nl))%py.
End Formato.

End ActuadorLuz.

(** ** The object store and the monitoring loop *)

(** An object of one of the four classes ([DispositivoIoT] can be
    instantiated: it is a base class by intent only). *)
Inductive dispositivo : Type :=
| Base (d : DispositivoIoT.t)
| Temp (s : SensorTemperatura.t)
| Hum (s : SensorHumedad.t)
| Luz (a : ActuadorLuz.t).

(** A list of devices is a list of references: the same object may sit at
    several positions, and every position sees what a method did to it. *)
Definition ref : Type := nat.

Record mundo : Type := { azar : Random.rng; objs : ref -> dispositivo }.

Definition actualizar (h : ref -> dispositivo) (r : ref) (o : dispositivo)
  : ref -> dispositivo :=
  fun r' => if Nat.eqb r' r then o else h r'.

Definition set_azar (g : Random.rng) (w : mundo) : mundo :=
  {| azar := g; objs := objs w |}.
Definition set_obj (r : ref) (o : dispositivo) (w : mundo) : mundo :=
  {| azar := azar w; objs := actualizar (objs w) r o |}.

(** The part of every object that the base class owns. *)
Definition base_de (o : dispositivo) : DispositivoIoT.t :=
  match o with
  | Base d => d
  | Temp s => SensorTemperatura.base s
  | Hum s => SensorHumedad.base s
  | Luz a => ActuadorLuz.base a
  end.

(** A method of class [C] called on the object behind [r], which the caller
    has found to be the instance [c] of [C]. *)
Definition invocar {C A} (inj : C -> dispositivo) (r : ref) (c : C)
  (m : Py C A) : Py mundo A :=
  PyM.zoom (fun _ => c) (fun c' w => set_obj r (inj c') w) m.

(** The same for a method that also draws from the generator. *)
Definition invocar_azar {C A} (inj : C -> dispositivo) (r : ref) (c : C)
  (m : Py (Random.rng * C) A) : Py mundo A :=
  PyM.zoom (fun w => (azar w, c))
           (fun p w => set_obj r (inj (snd p)) (set_azar (fst p) w)) m.

Definition encender (d : ref) : Py mundo unit :=
  (o <- PyM.gets (fun w => objs w d) ;;
   match o with
   | Base b => invocar Base d b DispositivoIoT.encender
   | Temp s => invocar Temp d s (SensorTemperatura.super DispositivoIoT.encender)
   | Hum s => invocar Hum d s (SensorHumedad.super DispositivoIoT.encender)
   | Luz a => invocar Luz d a (ActuadorLuz.super DispositivoIoT.encender)
   end)%py.

Definition apagar (d : ref) : Py mundo unit :=
  (o <- PyM.gets (fun w => objs w d) ;;
   match o with
   | Base b => invocar Base d b DispositivoIoT.apagar
   | Temp s => invocar Temp d s (SensorTemperatura.super DispositivoIoT.apagar)
   | Hum s => invocar Hum d s (SensorHumedad.super DispositivoIoT.apagar)
   | Luz a => invocar Luz d a (ActuadorLuz.super DispositivoIoT.apagar)
   end)%py.

Section Monitoreo.

Variable repr_float : float -> string.

(** [d.mostrar_datos()]: the class of the object picks the method. *)
Definition mostrar_datos (d : ref) : Py mundo unit :=
  (o <- PyM.gets (fun w => objs w d) ;;
   match o with
   | Base b => invocar Base d b (DispositivoIoT.mostrar_datos "DispositivoIoT")
   | Temp s => invocar Temp d s (SensorTemperatura.mostrar_datos repr_float)
   | Hum s => invocar Hum d s (SensorHumedad.mostrar_datos repr_float)
   | Luz a => invocar Luz d a (ActuadorLuz.mostrar_datos repr_float)
   end)%py.

(** Phase 1, lines 227-231. *)
Definition leer_sensor (d : ref) : Py mundo unit :=
  (o <- PyM.gets (fun w => objs w d) ;;
   match o with
   | Temp s => _ <- invocar_azar Temp d s SensorTemperatura.leer_temperatura ;;
               PyM.ret tt
   | Hum s => _ <- invocar_azar Hum d s SensorHumedad.leer_humedad ;;
              PyM.ret tt
   | _ => PyM.ret tt
   end)%py.

(** Line 236: the list comprehension over the temperature sensors. *)
Definition temperaturas (dispositivos : list ref) (w : mundo) : list float :=
  flat_map (fun d => match objs w d with
                     | Temp s => [SensorTemperatura.temperatura s]
                     | _ => []
                     end) dispositivos.

(** Line 238: [any(t > umbral_temp for t in temperaturas)]. *)
Definition alarma_calor (umbral_temp : float) (ts : list float) : bool :=
  existsb (fun t => (t >? umbral_temp)%float) ts.

(** Lines 241-243. *)
Definition ajustar_luz (alarma : bool) (d : ref) : Py mundo unit :=
  (o <- PyM.gets (fun w => objs w d) ;;
   match o with
   | Luz a => invocar Luz d a
                (ActuadorLuz.ajustar_intensidad repr_float
                   (PyInt (if alarma then 80 else 20)))
   | _ => PyM.ret tt
   end)%py.

(** The body of the [for ciclo in range(1, ciclos + 1)] loop. *)
Definition ciclo_monitoreo (dispositivos : list ref) (pausa_seg : float)
  (umbral_temp : float) (ciclo : Z) : Py mundo unit :=
  (PyM.print ("------------------- Ciclo " ++ Builtins.str_int ciclo
              ++ " -------------------") ;;
   PyM.for_ dispositivos leer_sensor ;;
   ts <- PyM.gets (temperaturas dispositivos) ;;
   let alarma := alarma_calor umbral_temp ts in
   PyM.for_ dispositivos (ajustar_luz alarma) ;;
   PyM.for_ dispositivos mostrar_datos ;;
   Builtins.sleep pausa_seg)%py.

(** [range(1, n + 1)] *)
Definition range1 (n : Z) : list Z :=
  map (fun i => Z.of_nat i) (seq 1 (Z.to_nat n)).

Definition simulacion_monitoreo (dispositivos : list ref) (ciclos : Z)
  (pausa_seg : float) (umbral_temp : float) : Py mundo unit :=
  (PyM.print (nl ++ "================ INICIO DE MONITOREO ================"
              ++ nl) ;;
   PyM.for_ (range1 ciclos)
     (ciclo_monitoreo dispositivos pausa_seg umbral_temp) ;;
   PyM.print ("================= FIN DE MONITOREO =================" ++ nl))%py.

End Monitoreo.

(** * Properties *)

(** ** What can be read off an object *)

Definition id_de (o : dispositivo) : string :=
  DispositivoIoT.id_dispositivo (base_de o).
Definition estado_de (o : dispositivo) : bool :=
  DispositivoIoT.estado (base_de o).

Inductive clase : Type :=
| CDispositivoIoT | CSensorTemperatura | CSensorHumedad | CActuadorLuz.

Definition clase_de (o : dispositivo) : clase :=
  match o with
  | Base _ => CDispositivoIoT
  | Temp _ => CSensorTemperatura
  | Hum _ => CSensorHumedad
  | Luz _ => CActuadorLuz
  end.

Definition temperatura_de (o : dispositivo) : option float :=
  match o with Temp s => Some (SensorTemperatura.temperatura s) | _ => None end.
Definition humedad_de (o : dispositivo) : option float :=
  match o with Hum s => Some (SensorHumedad.humedad s) | _ => None end.
Definition intensidad_de (o : dispositivo) : option pyval :=
  match o with Luz a => Some (ActuadorLuz.intensidad a) | _ => None end.

(** The object with its power flag replaced and nothing else touched. *)
Definition con_estado (e : bool) (o : dispositivo) : dispositivo :=
  match o with
  | Base d => Base (DispositivoIoT.set_estado e d)
  | Temp s => Temp (SensorTemperatura.set_base
                      (DispositivoIoT.set_estado e (SensorTemperatura.base s)) s)
  | Hum s => Hum (SensorHumedad.set_base
                    (DispositivoIoT.set_estado e (SensorHumedad.base s)) s)
  | Luz a => Luz (ActuadorLuz.set_base
                    (DispositivoIoT.set_estado e (ActuadorLuz.base a)) a)
  end.

(** Two stores that hold the same object behind every reference. *)
Definition mismos_objs (w w' : mundo) : Prop :=
  forall r, objs w' r = objs w r.

(** "[v] is an integer in [[0, 100]]", for a value of class [int]
    ([bool] included, as [isinstance] has it). *)
Definition entero_en_rango (v : pyval) : Prop :=
  exists z, Builtins.int_de v = Some z /\ 0 <= z <= 100.

Definition encendido (a : ActuadorLuz.t) : bool :=
  DispositivoIoT.estado (ActuadorLuz.base a).

Definition aviso_apagado (a : ActuadorLuz.t) : string :=
  "[ADVERTENCIA] " ++ DispositivoIoT.id_dispositivo (ActuadorLuz.base a)
  ++ " está apagado; no se puede ajustar intensidad.".

(** The test [ajustar_intensidad] makes of its argument, as one boolean. *)
Definition valido (v : pyval) : bool :=
  match Builtins.int_de v with
  | Some z => (0 <=? z)%Z && (z <=? 100)%Z
  | None => false
  end.

(** The value [random.uniform(a, b)] takes when the generator's next word
    is [k]. *)
Definition uniforme_de (a b : float) (k : Z) : float :=
  (a + (b - a) * Fin (inject_Z (k mod 2 ^ 53) / inject_Z (2 ^ 53)))%float.

(** "Rounded to two decimal places", for a binary64: the value is the
    binary64 nearest to some decimal with two places. *)
Definition dos_decimales (v : float) : Prop :=
  exists n : Z, v = Float.b64 (inject_Z n / 100).

Section TrasAjuste.
Variable repr_float : float -> string.

(** An object after [ajustar_intensidad(v)] has been called on it, if it is
    a light actuator. *)
Definition tras_ajuste (v : pyval) (o : dispositivo) : dispositivo :=
  match o with
  | Luz a =>
      Luz (PyM.estado_final (ActuadorLuz.ajustar_intensidad repr_float v a))
  | _ => o
  end.
End TrasAjuste.

(** Reading a sensor returns, keeps every object in its class and leaves
    the objects that are not sensors alone. *)
Definition lectura_ok (w w1 : mundo) : Prop :=
  (forall r, clase_de (objs w1 r) = clase_de (objs w r))
  /\ (forall r, temperatura_de (objs w r) = None ->
                humedad_de (objs w r) = None -> objs w1 r = objs w r).

Arguments Float.b64 : simpl never.
Arguments Float.round2 : simpl never.
Arguments Random.uniform : simpl never.
Arguments Random.random : simpl never.

(** ** Sample objects *)

Definition luz_sala (e : bool) (i : pyval) : ActuadorLuz.t :=
  {| ActuadorLuz.base :=
       {| DispositivoIoT.id_dispositivo := "Luz_Sala";
          DispositivoIoT.estado := e |};
     ActuadorLuz.intensidad := i |}.

Definition temp_01 (e : bool) (x : float) : SensorTemperatura.t :=
  {| SensorTemperatura.base :=
       {| DispositivoIoT.id_dispositivo := "TempSensor_01";
          DispositivoIoT.estado := e |};
     SensorTemperatura.temperatura := x |}.

Definition hum_01 (e : bool) (x : float) : SensorHumedad.t :=
  {| SensorHumedad.base :=
       {| DispositivoIoT.id_dispositivo := "HumSensor_01";
          DispositivoIoT.estado := e |};
     SensorHumedad.humedad := x |}.

(** A generator that hands out the same word for ever. *)
Definition azar_fijo (k : Z) : Random.rng := fun _ => k.

(** A store with a temperature sensor at 0, a humidity sensor at 1, a light
    at 2 and base-class objects everywhere else. *)
Definition mundo_demo (e : bool) (k : Z) : mundo :=
  {| azar := azar_fijo k;
     objs := fun r =>
       match r with
       | 0%nat => Temp (temp_01 e (Fin 0))
       | 1%nat => Hum (hum_01 e (Fin 0))
       | 2%nat => Luz (luz_sala e (PyInt 0))
       | _ => Base (DispositivoIoT.__init__ "otro")
       end |}.

(** ** Vocabulary for the further properties *)

(** What a sensor holds after a reading, given its power flag: 0.0 when
    off, a two-decimal value of its range when on. *)
Definition lectura_valida (lo hi : Q) (e : bool) (x : float) : Prop :=
  if e then exists t, x = Fin t /\ (lo <= t <= hi)%Q /\ dos_decimales x
  else x = Fin 0.

Definition sensor_leido (o : dispositivo) : Prop :=
  match o with
  | Temp s =>
      lectura_valida 20 40 (DispositivoIoT.estado (SensorTemperatura.base s))
        (SensorTemperatura.temperatura s)
  | Hum s =>
      lectura_valida 30 90 (DispositivoIoT.estado (SensorHumedad.base s))
        (SensorHumedad.humedad s)
  | _ => True
  end.

(** A sensor that is on: the objects whose reading draws a number. *)
Definition sensor_encendido (o : dispositivo) : bool :=
  match o with
  | Temp _ | Hum _ => estado_de o
  | _ => false
  end.

(** How many positions of the list hold a sensor that is on. *)
Definition lecturas (dispositivos : list ref) (w : mundo) : nat :=
  List.length (filter (fun d => sensor_encendido (objs w d)) dispositivos).

(** What the loop may do to the store: every object keeps its class,
    identifier and power flag, and objects outside the list are not
    touched at all. *)
Definition marco (dispositivos : list ref) (w w' : mundo) : Prop :=
  (forall r, clase_de (objs w' r) = clase_de (objs w r)
             /\ base_de (objs w' r) = base_de (objs w r))
  /\ (forall r, ~ In r dispositivos -> objs w' r = objs w r).

(** The generator after [n] draws. *)
Definition avanzar (n : nat) (g : Random.rng) : Random.rng :=
  fun i => g (i + n)%nat.

(** The lines of the two banners of a run. *)
Definition linea_inicio : string :=
  nl ++ "================ INICIO DE MONITOREO ================" ++ nl.
Definition linea_fin : string :=
  "================= FIN DE MONITOREO =================" ++ nl.

(** A threshold no reading can exceed: a number from 40 up, plus infinity,
    or a NaN, with which every comparison is false. *)
Definition umbral_alto (u : float) : Prop :=
  match u with
  | Fin q => (40 <= q)%Q
  | Inf s => s = false
  | NaN => True
  end.

(** The calls a user can make on a light actuator and on a temperature
    sensor. *)
Inductive llamada_luz : Type :=
| LuzEncender
| LuzApagar
| LuzAjustar (v : pyval)
| LuzMostrar.

Inductive llamada_sensor : Type :=
| SensorEncender
| SensorApagar
| SensorLeer
| SensorMostrar.

Section Llamadas.
Variable repr_float : float -> string.

Definition llamar_luz (c : llamada_luz) : Py ActuadorLuz.t unit :=
  match c with
  | LuzEncender => ActuadorLuz.super DispositivoIoT.encender
  | LuzApagar => ActuadorLuz.super DispositivoIoT.apagar
  | LuzAjustar v => ActuadorLuz.ajustar_intensidad repr_float v
  | LuzMostrar => ActuadorLuz.mostrar_datos repr_float
  end.

Definition llamar_sensor (c : llamada_sensor)
  : Py (Random.rng * SensorTemperatura.t) unit :=
  match c with
  | SensorEncender =>
      SensorTemperatura.self_ (SensorTemperatura.super DispositivoIoT.encender)
  | SensorApagar =>
      SensorTemperatura.self_ (SensorTemperatura.super DispositivoIoT.apagar)
  | SensorLeer =>
      (_ <- SensorTemperatura.leer_temperatura ;; PyM.ret tt)%py
  | SensorMostrar =>
      SensorTemperatura.self_ (SensorTemperatura.mostrar_datos repr_float)
  end.
End Llamadas.

(** The stored temperature is the initial 0.0 or a value of the range. *)
Definition temperatura_en_dominio (x : float) : Prop :=
  x = Fin 0 \/ exists t, x = Fin t /\ (20 <= t <= 40)%Q.

(** ** The script's entry point, lines 258-281 *)

Section Principal.
Variable repr_float : float -> string.

(** [random.seed(n)] puts the generator in the state the library derives
    from [n]; which words follow is the library's business. *)
Variable seed : Z -> Random.rng.

(** The five objects are created behind the references 0 to 4. *)
Definition temp1 : ref := 0%nat.
Definition temp2 : ref := 1%nat.
Definition hum1 : ref := 2%nat.
Definition luz1 : ref := 3%nat.
Definition luz2 : ref := 4%nat.

(** Lines 259-273: the seed, the objects, the list, and every device
    switched on. *)
Definition preparar : Py mundo (list ref) :=
  (PyM.modify (set_azar (seed 42)) ;;
   PyM.modify (set_obj temp1 (Temp (SensorTemperatura.__init__ "TempSensor_01"))) ;;
   PyM.modify (set_obj temp2 (Temp (SensorTemperatura.__init__ "TempSensor_02"))) ;;
   PyM.modify (set_obj hum1 (Hum (SensorHumedad.__init__ "HumSensor_01"))) ;;
   PyM.modify (set_obj luz1 (Luz (ActuadorLuz.__init__ "Luz_Sala"))) ;;
   PyM.modify (set_obj luz2 (Luz (ActuadorLuz.__init__ "Luz_Cocina"))) ;;
   let dispositivos := [temp1; temp2; hum1; luz1; luz2] in
   PyM.for_ dispositivos encender ;;
   PyM.ret dispositivos)%py.

Definition main : Py mundo unit :=
  (dispositivos <- preparar ;;
   simulacion_monitoreo repr_float dispositivos 5 (Fin (3 # 2)) (Fin 30))%py.

End Principal.

(** The objects of the script once they are on. *)
Definition temp_encendido (id : string) (x : float) : dispositivo :=
  Temp {| SensorTemperatura.base :=
            {| DispositivoIoT.id_dispositivo := id;
               DispositivoIoT.estado := true |};
          SensorTemperatura.temperatura := x |}.
Definition hum_encendido (id : string) (x : float) : dispositivo :=
  Hum {| SensorHumedad.base :=
           {| DispositivoIoT.id_dispositivo := id;
              DispositivoIoT.estado := true |};
         SensorHumedad.humedad := x |}.
Definition luz_encendida (id : string) (v : pyval) : dispositivo :=
  Luz {| ActuadorLuz.base :=
           {| DispositivoIoT.id_dispositivo := id;
              DispositivoIoT.estado := true |};
         ActuadorLuz.intensidad := v |}.

(** A generator whose first word is the largest one and whose later words
    are all zero. *)
Definition azar_alto_bajo : Random.rng :=
  fun n => match n with 0%nat => 2 ^ 53 - 1 | _ => 0 end.

(** The demonstration store with that generator. *)
Definition mundo_alto_bajo : mundo :=
  set_azar azar_alto_bajo (mundo_demo true 0).

Ltac py_unfold :=
  unfold PyM.bind, PyM.ret, PyM.gets, PyM.modify, PyM.print, PyM.raise,
    PyM.zoom, PyM.valor, PyM.estado_final, PyM.salida in *.

(** * Binary64 rounding *)

Section Redondeo.

Import Float.
Local Open Scope Q_scope.

Lemma pow2_pos (k : Z) : 0 < 2 ^ k.
Proof. now apply Qpower_0_lt. Qed.

Lemma pow2_plus (a b : Z) : 2 ^ (a + b) == 2 ^ a * 2 ^ b.
Proof. now apply Qpower_plus. Qed.

Lemma pow2_Z (a : Z) : (0 <= a)%Z -> inject_Z (2 ^ a) == 2 ^ a.
Proof. intros H. now rewrite Zpower_Qpower. Qed.

Lemma pow2_le (a b : Z) : (a <= b)%Z -> 2 ^ a <= 2 ^ b.
Proof. intros H. now apply Qpower_le_compat_l. Qed.

Lemma pow2_lt_inv (a b : Z) : 2 ^ a < 2 ^ b -> (a < b)%Z.
Proof. intros H. now apply (Qpower_lt_compat_l_inv 2). Qed.

Lemma Qabs_pos_eq (q : Q) : 0 <= q -> Qabs q = q.
Proof.
  destruct q as [n d]. unfold Qle. simpl. intros H.
  unfold Qabs. f_equal. apply Z.abs_eq. lia.
Qed.

(** [Qlog2 q] is the binade of [q]. *)
Lemma Qlog2_spec (q : Q) :
  0 < q -> 2 ^ Qlog2 q <= q /\ q < 2 ^ (Qlog2 q + 1).
Proof.
  intros Hq. unfold Qlog2.
  destruct q as [n d]. cbn [Qnum Qden].
  assert (Hn : (0 < n)%Z) by (unfold Qlt in Hq; simpl in Hq; lia).
  set (a := Z.log2 n). set (b := Z.log2 (Z.pos d)).
  assert (Ha0 : (0 <= a)%Z) by apply Z.log2_nonneg.
  assert (Hb0 : (0 <= b)%Z) by apply Z.log2_nonneg.
  destruct (Z.log2_spec n Hn) as [Ha1 Ha2]. fold a in Ha1, Ha2.
  destruct (Z.log2_spec (Z.pos d) (Pos2Z.is_pos d)) as [Hb1 Hb2].
  fold b in Hb1, Hb2.
  assert (Qa1 : 2 ^ a <= inject_Z n)
    by (rewrite <- pow2_Z by assumption; now rewrite <- Zle_Qle).
  assert (Qa2 : inject_Z n < 2 ^ (a + 1))
    by (rewrite <- pow2_Z by lia; now rewrite <- Zlt_Qlt).
  assert (Qb1 : 2 ^ b <= inject_Z (Z.pos d))
    by (rewrite <- pow2_Z by assumption; now rewrite <- Zle_Qle).
  assert (Qb2 : inject_Z (Z.pos d) < 2 ^ (b + 1))
    by (rewrite <- pow2_Z by lia; now rewrite <- Zlt_Qlt).
  assert (Hd : 0 < inject_Z (Z.pos d)) by reflexivity.
  assert (Hq' : n # d == inject_Z n / inject_Z (Z.pos d))
    by apply Qmake_Qdiv.
  (* q < 2^(a-b+1) and 2^(a-b-1) < q *)
  assert (Hsup : n # d < 2 ^ (a - b + 1)).
  { rewrite Hq'. apply Qlt_shift_div_r; [assumption |].
    apply Qlt_le_trans with (2 ^ (a + 1)); [assumption |].
    replace (a + 1)%Z with ((a - b + 1) + b)%Z by ring.
    rewrite pow2_plus. apply Qmult_le_l; [apply pow2_pos | assumption]. }
  assert (Hinf : 2 ^ (a - b - 1) < n # d).
  { rewrite Hq'. apply Qlt_shift_div_l; [assumption |].
    apply Qlt_le_trans with (2 ^ a); [| assumption].
    replace a with ((a - b - 1) + (b + 1))%Z at 2 by ring.
    rewrite pow2_plus. apply Qmult_lt_l; [apply pow2_pos | assumption]. }
  destruct (Qle_bool (2 ^ (a - b)) (n # d)) eqn:E.
  - apply Qle_bool_iff in E. split; assumption.
  - assert (E' : n # d < 2 ^ (a - b)).
    { apply Qnot_le_lt. intros H. apply Qle_bool_iff in H. congruence. }
    replace (a - b - 1 + 1)%Z with (a - b)%Z by ring.
    split; [now apply Qlt_le_weak | assumption].
Qed.

Lemma Qlog2_lt (q : Q) (j : Z) : 0 < q -> q < 2 ^ j -> (Qlog2 q < j)%Z.
Proof.
  intros Hq Hj. destruct (Qlog2_spec q Hq) as [H1 _].
  apply pow2_lt_inv. now apply Qle_lt_trans with q.
Qed.

Lemma Qlog2_le (q : Q) (j : Z) : 0 < q -> 2 ^ j <= q -> (j <= Qlog2 q)%Z.
Proof.
  intros Hq Hj. destruct (Qlog2_spec q Hq) as [_ H2].
  assert (H : (j < Qlog2 q + 1)%Z)
    by (apply pow2_lt_inv; now apply Qle_lt_trans with q).
  lia.
Qed.

(** ** Rounding to the nearest integer *)

Lemma redondeo_par_comp (q1 q2 : Q) :
  q1 == q2 -> redondeo_par q1 = redondeo_par q2.
Proof.
  intros H. unfold redondeo_par. rewrite (Qfloor_comp _ _ H).
  assert (Hc : (q1 - inject_Z (Qfloor q2) ?= 1 # 2)
               = (q2 - inject_Z (Qfloor q2) ?= 1 # 2))
    by (apply Qcompare_comp; [now rewrite H | reflexivity]).
  now rewrite Hc.
Qed.

Lemma redondeo_par_piso (q : Q) :
  (Qfloor q <= redondeo_par q <= Qfloor q + 1)%Z.
Proof.
  unfold redondeo_par.
  destruct (q - inject_Z (Qfloor q) ?= 1 # 2); [| lia | lia].
  destruct (Z.even (Qfloor q)); lia.
Qed.

Lemma redondeo_par_Z (z : Z) : redondeo_par (inject_Z z) = z.
Proof.
  unfold redondeo_par. rewrite Qfloor_Z.
  destruct (Qcompare_spec (inject_Z z - inject_Z z) (1 # 2)) as [E|E|E];
    [exfalso; lra | reflexivity | exfalso; lra].
Qed.

Lemma redondeo_par_mono (q1 q2 : Q) :
  q1 <= q2 -> (redondeo_par q1 <= redondeo_par q2)%Z.
Proof.
  intros H. pose proof (Qfloor_resp_le _ _ H) as Hf.
  destruct (Z.eq_dec (Qfloor q1) (Qfloor q2)) as [He | Hne].
  - unfold redondeo_par. rewrite He.
    destruct (Qcompare_spec (q1 - inject_Z (Qfloor q2)) (1 # 2)) as [E1|E1|E1];
      destruct (Qcompare_spec (q2 - inject_Z (Qfloor q2)) (1 # 2))
        as [E2|E2|E2];
      try destruct (Z.even (Qfloor q2)); try lia; exfalso; lra.
  - pose proof (redondeo_par_piso q1). pose proof (redondeo_par_piso q2). lia.
Qed.

(** The result is a nearest integer. *)
Lemma redondeo_par_cerca (q : Q) :
  q - (1 # 2) <= inject_Z (redondeo_par q) <= q + (1 # 2).
Proof.
  pose proof (Qfloor_le q) as H1. pose proof (Qlt_floor q) as H2.
  rewrite inject_Z_plus in H2.
  unfold redondeo_par.
  destruct (Qcompare_spec (q - inject_Z (Qfloor q)) (1 # 2)) as [E|E|E];
    try destruct (Z.even (Qfloor q)); rewrite ?inject_Z_plus;
    change (inject_Z 1) with 1 in *; lra.
Qed.

Lemma redondeo_par_le_Z (q : Q) (z : Z) :
  q <= inject_Z z -> (redondeo_par q <= z)%Z.
Proof.
  intros H. rewrite <- (redondeo_par_Z z). now apply redondeo_par_mono.
Qed.

Lemma redondeo_par_ge_Z (q : Q) (z : Z) :
  inject_Z z <= q -> (z <= redondeo_par q)%Z.
Proof.
  intros H. rewrite <- (redondeo_par_Z z) at 1. now apply redondeo_par_mono.
Qed.

(** ** Rounding to binary64 *)

Lemma redondear_pos (q : Q) :
  0 < q ->
  redondear q
  = inject_Z (redondeo_par (q / 2 ^ exp_ulp q)) * 2 ^ exp_ulp q.
Proof.
  intros Hq. unfold redondear.
  destruct (Qeq_bool q 0) eqn:E; [| reflexivity].
  apply Qeq_bool_iff in E. exfalso. lra.
Qed.

Lemma exp_ulp_pos (q : Q) :
  0 < q -> exp_ulp q = Z.max (Qlog2 q - 52) (-1074).
Proof.
  intros Hq. unfold exp_ulp. rewrite Qabs_pos_eq; [reflexivity | lra].
Qed.

Lemma exp_ulp_le (q : Q) (j : Z) :
  0 < q -> q < 2 ^ (j + 53) -> (-1074 <= j)%Z -> (exp_ulp q <= j)%Z.
Proof.
  intros Hq Hj Hm. rewrite (exp_ulp_pos q Hq).
  pose proof (Qlog2_lt q (j + 53) Hq Hj). lia.
Qed.

(** A multiple of [2^j] is a multiple of every smaller power of two. *)
Lemma rejilla (m j e : Z) :
  (e <= j)%Z -> inject_Z m * 2 ^ j == inject_Z (m * 2 ^ (j - e)) * 2 ^ e.
Proof.
  intros H. rewrite inject_Z_mult, pow2_Z by lia.
  rewrite <- Qmult_assoc, <- pow2_plus.
  now replace (j - e + e)%Z with j by ring.
Qed.

(** Rounding does not cross a number that the format holds exactly. *)
Lemma redondear_le_rejilla (q : Q) (m j : Z) :
  0 < q -> (exp_ulp q <= j)%Z ->
  q <= inject_Z m * 2 ^ j -> redondear q <= inject_Z m * 2 ^ j.
Proof.
  intros Hq Hj H. rewrite (redondear_pos q Hq).
  set (e := exp_ulp q) in *.
  rewrite (rejilla m j e Hj) in *.
  apply Qmult_le_r; [apply pow2_pos |]. rewrite <- Zle_Qle.
  apply redondeo_par_le_Z.
  apply Qle_shift_div_r; [apply pow2_pos | assumption].
Qed.

Lemma redondear_ge_rejilla (q : Q) (m j : Z) :
  0 < q -> (exp_ulp q <= j)%Z ->
  inject_Z m * 2 ^ j <= q -> inject_Z m * 2 ^ j <= redondear q.
Proof.
  intros Hq Hj H. rewrite (redondear_pos q Hq).
  set (e := exp_ulp q) in *.
  rewrite (rejilla m j e Hj) in *.
  apply Qmult_le_r; [apply pow2_pos |]. rewrite <- Zle_Qle.
  apply redondeo_par_ge_Z.
  apply Qle_shift_div_l; [apply pow2_pos | assumption].
Qed.

Lemma max_float_entero (b : Z) : (b < 2 ^ 53)%Z -> inject_Z b <= max_float.
Proof.
  intros H. unfold max_float. rewrite <- Zle_Qle.
  apply Z.le_trans with (2 ^ 53 - 1)%Z; [lia |].
  apply Z.leb_le. vm_compute. reflexivity.
Qed.

Lemma b64_cero (q : Q) : q == 0 -> b64 q = Fin 0.
Proof.
  intros H. unfold b64, redondear.
  apply Qeq_bool_iff in H. rewrite H. vm_compute. reflexivity.
Qed.

(** A rational between two integers below [2^53] is rounded to a finite
    binary64 between them. *)
Lemma b64_entre (q : Q) (a b : Z) :
  (0 <= a)%Z -> (b < 2 ^ 53)%Z ->
  inject_Z a <= q <= inject_Z b ->
  exists r, b64 q = Fin r /\ inject_Z a <= r <= inject_Z b.
Proof.
  intros Ha Hb [Hl Hu].
  assert (Ha' : 0 <= inject_Z a) by (now rewrite <- (Zle_Qle 0)).
  destruct (Qlt_le_dec 0 q) as [Hq | Hq].
  - assert (Hj : (exp_ulp q <= 0)%Z).
    { apply exp_ulp_le; [assumption | | lia].
      apply Qle_lt_trans with (inject_Z b); [assumption |].
      simpl Z.add. rewrite <- pow2_Z by lia. now rewrite <- Zlt_Qlt. }
    pose proof (redondear_ge_rejilla q a 0 Hq Hj) as H1.
    pose proof (redondear_le_rejilla q b 0 Hq Hj) as H2.
    change (2 ^ 0) with 1 in H1, H2. rewrite Qmult_1_r in H1, H2.
    specialize (H1 Hl). specialize (H2 Hu).
    exists (Qred (redondear q)).
    split; [| rewrite Qred_correct; split; assumption].
    unfold b64.
    replace (Qle_bool (Qabs (Qred (redondear q))) max_float) with true;
      [reflexivity |].
    symmetry. apply Qle_bool_iff. rewrite Qred_correct.
    rewrite Qabs_pos by lra.
    apply Qle_trans with (inject_Z b); [assumption |].
    now apply max_float_entero.
  - assert (Hq0 : q == 0) by lra.
    exists 0. split; [now apply b64_cero |].
    split; [lra |]. apply Qle_trans with q; [lra | assumption].
Qed.

Lemma Qlog2_mono (q1 q2 : Q) :
  0 < q1 -> q1 <= q2 -> (Qlog2 q1 <= Qlog2 q2)%Z.
Proof.
  intros H1 H. apply Qlog2_le; [lra |].
  destruct (Qlog2_spec q1 H1) as [Hl _]. lra.
Qed.

(** Rounding is monotone. *)
Lemma redondear_mono (q1 q2 : Q) :
  0 < q1 -> q1 <= q2 -> redondear q1 <= redondear q2.
Proof.
  intros H1 H. assert (H2 : 0 < q2) by lra.
  pose proof (Qlog2_mono q1 q2 H1 H) as Hk.
  pose proof (exp_ulp_pos q1 H1) as He1.
  pose proof (exp_ulp_pos q2 H2) as He2.
  destruct (Z.eq_dec (exp_ulp q1) (exp_ulp q2)) as [E | E].
  - rewrite (redondear_pos q1 H1), (redondear_pos q2 H2), E.
    apply Qmult_le_r; [apply pow2_pos |]. rewrite <- Zle_Qle.
    apply redondeo_par_mono. unfold Qdiv.
    apply Qmult_le_compat_r; [assumption |].
    apply Qlt_le_weak, Qinv_lt_0_compat, pow2_pos.
  - destruct (Qlog2_spec q1 H1) as [_ Hs1].
    destruct (Qlog2_spec q2 H2) as [Hs2 _].
    assert (Hlt : (Qlog2 q1 + 1 <= Qlog2 q2)%Z) by lia.
    pose proof (pow2_le _ _ Hlt) as Hp.
    apply Qle_trans with (inject_Z 1 * 2 ^ Qlog2 q2).
    + apply redondear_le_rejilla; [assumption | lia |].
      change (inject_Z 1) with 1. lra.
    + apply redondear_ge_rejilla; [assumption | lia |].
      change (inject_Z 1) with 1. lra.
Qed.

(** The result is within half a unit in the last place. *)
Lemma redondear_cerca (q : Q) :
  0 < q -> Qabs (redondear q - q) <= (1 # 2) * 2 ^ exp_ulp q.
Proof.
  intros Hq. rewrite (redondear_pos q Hq).
  set (e := exp_ulp q). pose proof (pow2_pos e) as Hp.
  destruct (redondeo_par_cerca (q / 2 ^ e)) as [Hl Hu].
  set (n := inject_Z (redondeo_par (q / 2 ^ e))) in *.
  assert (Hq' : q == q / 2 ^ e * 2 ^ e) by (field; lra).
  apply Qabs_Qle_condition. split.
  - apply Qle_trans with ((q / 2 ^ e - (1 # 2)) * 2 ^ e - q).
    + rewrite Hq' at 2. ring_simplify. lra.
    + apply Qplus_le_l. apply Qmult_le_r; assumption.
  - apply Qle_trans with ((q / 2 ^ e + (1 # 2)) * 2 ^ e - q).
    + apply Qplus_le_l. apply Qmult_le_r; assumption.
    + rewrite Hq' at 2. ring_simplify. lra.
Qed.

(** ** The value a powered sensor reads *)

Lemma random_rango (k : Z) :
  0 <= inject_Z (k mod 2 ^ 53) / inject_Z (2 ^ 53) < 1.
Proof.
  assert (Hp : (0 < 2 ^ 53)%Z) by reflexivity.
  destruct (Z.mod_pos_bound k (2 ^ 53) Hp) as [H0 H1].
  assert (Hq : 0 < inject_Z (2 ^ 53)) by reflexivity.
  split.
  - apply Qle_shift_div_l; [assumption |]. rewrite Qmult_0_l.
    now rewrite <- (Zle_Qle 0).
  - apply Qlt_shift_div_r; [assumption |]. rewrite Qmult_1_l.
    now rewrite <- Zlt_Qlt.
Qed.

(** [random.uniform(a, b)] between two integers stays between them. *)
Lemma uniforme_rango (a b k : Z) :
  (0 <= a <= b)%Z -> (b < 2 ^ 53)%Z ->
  exists x, uniforme_de (Fin (inject_Z a)) (Fin (inject_Z b)) k = Fin x
            /\ inject_Z a <= x <= inject_Z b.
Proof.
  intros Hab Hb. unfold uniforme_de, Float.sub, Float.neg.
  pose proof (random_rango k) as Hr.
  set (r := inject_Z (k mod 2 ^ 53) / inject_Z (2 ^ 53)) in *.
  assert (Ha' : 0 <= inject_Z a) by (rewrite <- (Zle_Qle 0); lia).
  assert (Hab' : inject_Z a <= inject_Z b) by (rewrite <- Zle_Qle; lia).
  assert (Hba : inject_Z (b - a) == inject_Z b - inject_Z a).
  { unfold Z.sub. rewrite inject_Z_plus, inject_Z_opp. reflexivity. }
  destruct (b64_entre (inject_Z b + - inject_Z a) (b - a) (b - a))
    as (d & Hd & Hd1); [lia | lia | rewrite Hba; lra |].
  cbn [Float.add]. rewrite Hd.
  destruct (b64_entre (d * r) 0 (b - a)) as (p & Hp & Hp1);
    [lia | lia | |].
  { change (inject_Z 0) with 0. split; [nra | nra]. }
  cbn [Float.mul]. rewrite Hp.
  destruct (b64_entre (inject_Z a + p) a b) as (x & Hx & Hx1);
    [lia | lia | |].
  { change (inject_Z 0) with 0 in Hp1. lra. }
  rewrite Hx. now exists x.
Qed.

(** [round(x, 2)] of a value between two integers stays between them, and
    is the binary64 nearest to a decimal with two places that is within
    half a hundredth of [x]. *)
Lemma round2_rango (x : Q) (a b : Z) :
  (0 <= a)%Z -> (b < 2 ^ 53)%Z -> inject_Z a <= x <= inject_Z b ->
  exists t n,
    round2 (Fin x) = Fin t /\ inject_Z a <= t <= inject_Z b
    /\ Fin t = b64 (inject_Z n / 100)
    /\ Qabs (inject_Z n / 100 - x) <= 1 # 200.
Proof.
  intros Ha Hb [Hl Hu]. unfold round2.
  set (n := redondeo_par (x * 100)).
  assert (Hn1 : (a * 100 <= n)%Z).
  { apply redondeo_par_ge_Z. rewrite inject_Z_mult.
    change (inject_Z 100) with 100. lra. }
  assert (Hn2 : (n <= b * 100)%Z).
  { apply redondeo_par_le_Z. rewrite inject_Z_mult.
    change (inject_Z 100) with 100. lra. }
  rewrite Zle_Qle, inject_Z_mult in Hn1, Hn2.
  change (inject_Z 100) with 100 in Hn1, Hn2.
  destruct (b64_entre (inject_Z n / 100) a b) as (t & Ht & Ht1);
    [assumption | assumption | |].
  { split.
    - apply Qle_shift_div_l; [reflexivity | assumption].
    - apply Qle_shift_div_r; [reflexivity | assumption]. }
  exists t, n. split; [assumption |]. split; [assumption |].
  split; [now symmetry |].
  destruct (redondeo_par_cerca (x * 100)) as [Hc1 Hc2]. fold n in Hc1, Hc2.
  apply Qabs_Qle_condition. split.
  - apply Qplus_le_r with x. ring_simplify.
    apply Qle_shift_div_l; [reflexivity | lra].
  - apply Qplus_le_r with x. ring_simplify.
    apply Qle_shift_div_r; [reflexivity | lra].
Qed.

(** Sample draws, checked against the interpreter's own arithmetic: the
    smallest and the largest word, and one in between. *)
Example lectura_muestra_min :
  round2 (uniforme_de (Fin 20) (Fin 40) 0) = Fin 20.
Proof. vm_compute. reflexivity. Qed.

Example lectura_muestra_max :
  round2 (uniforme_de (Fin 20) (Fin 40) (2 ^ 53 - 1)) = Fin 40.
Proof. vm_compute. reflexivity. Qed.

Example lectura_muestra_temperatura :
  round2 (uniforme_de (Fin 20) (Fin 40) 1234567890123456)
  = Fin (6400740970400317 # 281474976710656).
Proof. vm_compute. reflexivity. Qed.

Example lectura_muestra_humedad :
  round2 (uniforme_de (Fin 30) (Fin 90) 4979716061498644)
  = Fin (4445193569703035 # 70368744177664).
Proof. vm_compute. reflexivity. Qed.

Example b64_un_decimo : b64 (1 # 10) = Fin (3602879701896397 # 2 ^ 55).
Proof. vm_compute. reflexivity. Qed.

End Redondeo.

(** ** Sequencing *)

Lemma bind_normal {S A B} (m : Py S A) (k : A -> Py S B) s a s1 o1 :
  m s = (Normal a, s1, o1) ->
  PyM.bind m k s
  = (PyM.valor (k a s1), PyM.estado_final (k a s1), (o1 ++ PyM.salida (k a s1))%list).
Proof.
  intros H. unfold PyM.bind. rewrite H.
  destruct (k a s1) as [[r s2] o2]. reflexivity.
Qed.

(** ** Lemmas on the store *)

Lemma actualizar_eq h r o : actualizar h r o r = o.
Proof. unfold actualizar. now rewrite Nat.eqb_refl. Qed.

Lemma actualizar_neq h r o r' : r' <> r -> actualizar h r o r' = h r'.
Proof.
  intros Hne. unfold actualizar.
  destruct (Nat.eqb_spec r' r); [contradiction | reflexivity].
Qed.

Lemma actualizar_mismo h r r' : actualizar h r (h r) r' = h r'.
Proof.
  unfold actualizar. destruct (Nat.eqb_spec r' r); [now subst | reflexivity].
Qed.

(** ** [ajustar_intensidad], case by case *)

Section Actuador.

Variable repr_float : float -> string.
Local Notation "'ajustar'" := (ActuadorLuz.ajustar_intensidad repr_float).

Lemma ajustar_apagado a v :
  encendido a = false ->
  ajustar v a = (Normal tt, a, [aviso_apagado a]).
Proof.
  unfold encendido, ActuadorLuz.ajustar_intensidad, ActuadorLuz.super.
  py_unfold. intros ->. destruct a as [b i]. reflexivity.
Qed.

Lemma ajustar_no_entero a v :
  encendido a = true -> Builtins.isinstance_int v = false ->
  ajustar v a
  = (Normal tt, a, ["[ERROR] La intensidad debe ser un entero (0-100)."]).
Proof.
  unfold encendido, ActuadorLuz.ajustar_intensidad, ActuadorLuz.super.
  py_unfold. intros -> ->. destruct a as [b i]. reflexivity.
Qed.

Lemma ajustar_en_rango a v z :
  encendido a = true -> Builtins.int_de v = Some z -> 0 <= z <= 100 ->
  ajustar v a
  = (Normal tt, ActuadorLuz.set_intensidad v a,
     ["[INFO] Intensidad de "
      ++ DispositivoIoT.id_dispositivo (ActuadorLuz.base a)
      ++ " ajustada a " ++ Builtins.str repr_float v ++ "%"]).
Proof.
  unfold encendido, ActuadorLuz.ajustar_intensidad, ActuadorLuz.super.
  py_unfold. intros -> Hz Hr. destruct a as [b i].
  assert (Hi : Builtins.isinstance_int v = true)
    by (destruct v; simpl in Hz; congruence || reflexivity).
  rewrite Hi. unfold Builtins.le. py_unfold. rewrite Hz. simpl.
  destruct (Z.leb_spec 0 z); [| lia].
  destruct (Z.leb_spec z 100); [| lia]. reflexivity.
Qed.

Lemma ajustar_fuera_de_rango a v z :
  encendido a = true -> Builtins.int_de v = Some z -> ~ 0 <= z <= 100 ->
  ajustar v a
  = (Normal tt, a,
     ["[ERROR] Valor fuera de rango (0-100). No se aplica cambio."]).
Proof.
  unfold encendido, ActuadorLuz.ajustar_intensidad, ActuadorLuz.super.
  py_unfold. intros -> Hz Hr. destruct a as [b i].
  assert (Hi : Builtins.isinstance_int v = true)
    by (destruct v; simpl in Hz; congruence || reflexivity).
  rewrite Hi. unfold Builtins.le. py_unfold. rewrite Hz. simpl.
  destruct (Z.leb_spec 0 z); [| reflexivity].
  destruct (Z.leb_spec z 100); [lia | reflexivity].
Qed.

Lemma int_de_isinstance v :
  Builtins.isinstance_int v = false <-> Builtins.int_de v = None.
Proof. destruct v; simpl; split; congruence. Qed.

(** The call always returns, and what it leaves is one of two states. *)
Lemma ajustar_normal a v : PyM.valor (ajustar v a) = Normal tt.
Proof.
  destruct (encendido a) eqn:He.
  - destruct (Builtins.int_de v) as [z |] eqn:Hz.
    + destruct (Z_le_dec 0 z) as [H0 |];
        [destruct (Z_le_dec z 100) as [H1 |] |].
      * now rewrite (ajustar_en_rango a v z).
      * rewrite (ajustar_fuera_de_rango a v z); auto. lia.
      * rewrite (ajustar_fuera_de_rango a v z); auto. lia.
    + rewrite ajustar_no_entero; auto. now apply int_de_isinstance.
  - now rewrite ajustar_apagado.
Qed.

End Actuador.

(** ** Power control and reports on the store *)

Lemma encender_spec d w :
  encender d w
  = (Normal tt, set_obj d (con_estado true (objs w d)) w,
     ["[INFO] " ++ id_de (objs w d) ++ " encendido."]).
Proof.
  unfold encender, invocar. py_unfold.
  destruct (objs w d) as [b | s | s | a]; reflexivity.
Qed.

Lemma apagar_spec d w :
  apagar d w
  = (Normal tt, set_obj d (con_estado false (objs w d)) w,
     ["[INFO] " ++ id_de (objs w d) ++ " apagado."]).
Proof.
  unfold apagar, invocar. py_unfold.
  destruct (objs w d) as [b | s | s | a]; reflexivity.
Qed.

Lemma con_estado_marco e o :
  estado_de (con_estado e o) = e
  /\ id_de (con_estado e o) = id_de o
  /\ clase_de (con_estado e o) = clase_de o
  /\ temperatura_de (con_estado e o) = temperatura_de o
  /\ humedad_de (con_estado e o) = humedad_de o
  /\ intensidad_de (con_estado e o) = intensidad_de o.
Proof. destruct o; repeat split. Qed.

Section Reportes.

Variable repr_float : float -> string.

(** A report returns, and puts back the object it read. *)
Lemma mostrar_datos_spec d w :
  mostrar_datos repr_float d w
  = (Normal tt, set_obj d (objs w d) w,
     PyM.salida (mostrar_datos repr_float d w)).
Proof.
  unfold mostrar_datos, invocar. py_unfold.
  destruct (objs w d) as [[i e] | [[i e] x] | [[i e] x] | [[i e] x]];
    reflexivity.
Qed.

(** What it prints is read from the object alone. *)
Lemma mostrar_datos_salida d w1 w2 :
  objs w1 d = objs w2 d ->
  PyM.salida (mostrar_datos repr_float d w1)
  = PyM.salida (mostrar_datos repr_float d w2).
Proof.
  intros H. unfold mostrar_datos, invocar. py_unfold. rewrite H.
  destruct (objs w2 d) as [[i e] | [[i e] x] | [[i e] x] | [[i e] x]];
    reflexivity.
Qed.

(** A round of reports over any list of devices. *)
Lemma mostrar_todos ds : forall w,
  let r := PyM.for_ ds (mostrar_datos repr_float) w in
  PyM.valor r = Normal tt
  /\ mismos_objs w (PyM.estado_final r)
  /\ azar (PyM.estado_final r) = azar w.
Proof.
  induction ds as [| d ds IH]; intros w; cbv zeta; simpl PyM.for_.
  - repeat split.
  - rewrite (bind_normal _ _ _ _ _ _ (mostrar_datos_spec d w)).
    destruct (IH (set_obj d (objs w d) w)) as (Hr & Hw & Hg).
    unfold PyM.valor, PyM.estado_final, PyM.salida in *. simpl.
    repeat split; try assumption.
    intros x. rewrite Hw. simpl. apply actualizar_mismo.
Qed.

End Reportes.

(** ** Readings of a sensor that is off *)

Lemma leer_temperatura_apagado g s :
  DispositivoIoT.estado (SensorTemperatura.base s) = false ->
  SensorTemperatura.leer_temperatura (g, s)
  = (Normal (Fin 0), (g, SensorTemperatura.set_temperatura (Fin 0) s), []).
Proof.
  intros He.
  unfold SensorTemperatura.leer_temperatura, SensorTemperatura.self_,
    SensorTemperatura.super.
  py_unfold. cbn [fst snd]. rewrite He. reflexivity.
Qed.

Lemma leer_humedad_apagado g s :
  DispositivoIoT.estado (SensorHumedad.base s) = false ->
  SensorHumedad.leer_humedad (g, s)
  = (Normal (Fin 0), (g, SensorHumedad.set_humedad (Fin 0) s), []).
Proof.
  intros He.
  unfold SensorHumedad.leer_humedad, SensorHumedad.self_, SensorHumedad.super.
  py_unfold. cbn [fst snd]. rewrite He. reflexivity.
Qed.

(** ** Readings, whatever the power state *)

Lemma leer_temperatura_encendido (g : Random.rng) s :
  DispositivoIoT.estado (SensorTemperatura.base s) = true ->
  let v := Float.round2 (uniforme_de (Fin 20) (Fin 40) (g 0%nat)) in
  SensorTemperatura.leer_temperatura (g, s)
  = (Normal v, (fun n => g (S n), SensorTemperatura.set_temperatura v s), []).
Proof.
  intros He.
  unfold SensorTemperatura.leer_temperatura, SensorTemperatura.self_,
    SensorTemperatura.random_, SensorTemperatura.super, Random.uniform,
    Random.random, uniforme_de.
  py_unfold. cbn [fst snd]. rewrite He. reflexivity.
Qed.

Lemma leer_humedad_encendido (g : Random.rng) s :
  DispositivoIoT.estado (SensorHumedad.base s) = true ->
  let v := Float.round2 (uniforme_de (Fin 30) (Fin 90) (g 0%nat)) in
  SensorHumedad.leer_humedad (g, s)
  = (Normal v, (fun n => g (S n), SensorHumedad.set_humedad v s), []).
Proof.
  intros He.
  unfold SensorHumedad.leer_humedad, SensorHumedad.self_,
    SensorHumedad.random_, SensorHumedad.super, Random.uniform,
    Random.random, uniforme_de.
  py_unfold. cbn [fst snd]. rewrite He. reflexivity.
Qed.

Lemma leer_temperatura_forma g s :
  exists v g',
    SensorTemperatura.leer_temperatura (g, s)
    = (Normal v, (g', SensorTemperatura.set_temperatura v s), []).
Proof.
  destruct (DispositivoIoT.estado (SensorTemperatura.base s)) eqn:He.
  - eexists; eexists. apply (leer_temperatura_encendido g s He).
  - eexists; eexists. apply (leer_temperatura_apagado g s He).
Qed.

Lemma leer_humedad_forma g s :
  exists v g',
    SensorHumedad.leer_humedad (g, s)
    = (Normal v, (g', SensorHumedad.set_humedad v s), []).
Proof.
  destruct (DispositivoIoT.estado (SensorHumedad.base s)) eqn:He.
  - eexists; eexists. apply (leer_humedad_encendido g s He).
  - eexists; eexists. apply (leer_humedad_apagado g s He).
Qed.

(** ** Phase 1: the sensors are read *)

Lemma lectura_ok_refl w : lectura_ok w w.
Proof. split; intros; reflexivity. Qed.

Lemma lectura_ok_trans w w1 w2 :
  lectura_ok w w1 -> lectura_ok w1 w2 -> lectura_ok w w2.
Proof.
  intros [Hc1 Hf1] [Hc2 Hf2]. split.
  - intros r. now rewrite Hc2, Hc1.
  - intros r Ht Hh. rewrite Hf2, Hf1; auto.
    + rewrite Hf1; auto.
    + rewrite Hf1; auto.
Qed.

Lemma leer_sensor_spec d w :
  exists w1, leer_sensor d w = (Normal tt, w1, []) /\ lectura_ok w w1.
Proof.
  unfold leer_sensor.
  destruct (objs w d) as [b | s | s | a] eqn:Ho.
  - exists w. split; [| apply lectura_ok_refl].
    unfold PyM.bind, PyM.gets. rewrite Ho. reflexivity.
  - destruct (leer_temperatura_forma (azar w) s) as (v & g' & Hl).
    eexists. split.
    + unfold PyM.bind at 1. unfold PyM.gets. rewrite Ho.
      unfold invocar_azar, PyM.bind, PyM.zoom, PyM.ret. rewrite Hl.
      cbn [fst snd]. reflexivity.
    + split; intros r; simpl; unfold actualizar;
        destruct (Nat.eqb_spec r d) as [-> |]; try reflexivity.
      * now rewrite Ho.
      * rewrite Ho. discriminate.
  - destruct (leer_humedad_forma (azar w) s) as (v & g' & Hl).
    eexists. split.
    + unfold PyM.bind at 1. unfold PyM.gets. rewrite Ho.
      unfold invocar_azar, PyM.bind, PyM.zoom, PyM.ret. rewrite Hl.
      cbn [fst snd]. reflexivity.
    + split; intros r; simpl; unfold actualizar;
        destruct (Nat.eqb_spec r d) as [-> |]; try reflexivity.
      * now rewrite Ho.
      * rewrite Ho. discriminate.
  - exists w. split; [| apply lectura_ok_refl].
    unfold PyM.bind, PyM.gets. rewrite Ho. reflexivity.
Qed.

Lemma leer_sensores_spec ds : forall w,
  let r := PyM.for_ ds leer_sensor w in
  PyM.valor r = Normal tt /\ lectura_ok w (PyM.estado_final r).
Proof.
  induction ds as [| d ds IH]; intros w; cbv zeta; simpl PyM.for_.
  - split; [reflexivity | apply lectura_ok_refl].
  - destruct (leer_sensor_spec d w) as (w1 & Hl & Hok).
    rewrite (bind_normal _ _ _ _ _ _ Hl).
    destruct (IH w1) as [Hv Hok1].
    unfold PyM.valor, PyM.estado_final in *. cbn [fst snd].
    split; [assumption | eapply lectura_ok_trans; eassumption].
Qed.

(** ** Phase 2: the decision *)

Lemma temperaturas_In ds w t :
  In t (temperaturas ds w)
  <-> exists d s, In d ds /\ objs w d = Temp s
                  /\ SensorTemperatura.temperatura s = t.
Proof.
  unfold temperaturas. rewrite in_flat_map. split.
  - intros (d & Hd & Ht). destruct (objs w d) as [b | s | s | a] eqn:Ho;
      simpl in Ht; try contradiction.
    destruct Ht as [<- | []]. now exists d, s.
  - intros (d & s & Hd & Ho & <-). exists d. split; [assumption |].
    rewrite Ho. now left.
Qed.

Lemma temperaturas_sin_sensores ds w :
  (forall d, In d ds -> clase_de (objs w d) <> CSensorTemperatura) ->
  temperaturas ds w = [].
Proof.
  intros H. destruct (temperaturas ds w) as [| t ts] eqn:E; [reflexivity |].
  assert (Hin : In t (temperaturas ds w)) by (rewrite E; now left).
  apply temperaturas_In in Hin. destruct Hin as (d & s & Hd & Ho & _).
  exfalso. apply (H d Hd). now rewrite Ho.
Qed.

(** ** Phase 3: the lights are set *)

Section Luces.

Variable repr_float : float -> string.
Local Notation "'ajustar'" := (ActuadorLuz.ajustar_intensidad repr_float).

Lemma ajustar_estado_final a v :
  PyM.estado_final (ajustar v a)
  = if encendido a && valido v then ActuadorLuz.set_intensidad v a else a.
Proof.
  unfold valido. destruct (encendido a) eqn:He; simpl.
  - destruct (Builtins.int_de v) as [z |] eqn:Hz.
    + destruct (Z.leb_spec 0 z); [destruct (Z.leb_spec z 100) |]; simpl.
      * now rewrite (ajustar_en_rango _ a v z).
      * rewrite (ajustar_fuera_de_rango _ a v z); auto. lia.
      * rewrite (ajustar_fuera_de_rango _ a v z); auto. lia.
    + rewrite ajustar_no_entero; auto. now apply int_de_isinstance.
  - now rewrite ajustar_apagado.
Qed.

Lemma tras_ajuste_idem v o :
  tras_ajuste repr_float v (tras_ajuste repr_float v o)
  = tras_ajuste repr_float v o.
Proof.
  destruct o as [b | s | s | a]; try reflexivity. simpl. f_equal.
  rewrite !ajustar_estado_final.
  destruct (encendido a && valido v) eqn:E; [| now rewrite E].
  unfold encendido in *. simpl. now rewrite E.
Qed.

Lemma ajustar_luz_spec al d w :
  exists w1 out,
    ajustar_luz repr_float al d w = (Normal tt, w1, out)
    /\ azar w1 = azar w
    /\ objs w1 d
       = tras_ajuste repr_float (PyInt (if al then 80 else 20)) (objs w d)
    /\ (forall r, r <> d -> objs w1 r = objs w r).
Proof.
  unfold ajustar_luz.
  destruct (objs w d) as [b | s | s | a] eqn:Ho.
  1-3: exists w, []; unfold PyM.bind, PyM.gets; rewrite Ho;
    repeat split; auto.
  pose proof (ajustar_normal repr_float a (PyInt (if al then 80 else 20)))
    as Hn.
  destruct (ajustar (PyInt (if al then 80 else 20)) a) as [[r a'] out] eqn:E.
  unfold PyM.valor in Hn. simpl in Hn. subst r.
  exists (set_obj d (Luz a') w), out.
  unfold PyM.bind, PyM.gets, invocar, PyM.zoom. rewrite Ho, E.
  repeat split; simpl.
  - rewrite actualizar_eq. unfold PyM.estado_final. now rewrite E.
  - intros r Hr. now apply actualizar_neq.
Qed.

Lemma ajustar_luces_spec al ds : forall w,
  let r := PyM.for_ ds (ajustar_luz repr_float al) w in
  let v := PyInt (if al then 80 else 20) in
  PyM.valor r = Normal tt
  /\ azar (PyM.estado_final r) = azar w
  /\ (forall d, In d ds ->
        objs (PyM.estado_final r) d = tras_ajuste repr_float v (objs w d))
  /\ (forall d, ~ In d ds -> objs (PyM.estado_final r) d = objs w d).
Proof.
  induction ds as [| d ds IH]; intros w; cbv zeta; simpl PyM.for_.
  - repeat split. intros d [].
  - destruct (ajustar_luz_spec al d w) as (w1 & out & Hl & Hg & Hd & Hr).
    rewrite (bind_normal _ _ _ _ _ _ Hl).
    destruct (IH w1) as (Hv & Hg1 & Hin & Hnin).
    unfold PyM.valor, PyM.estado_final in *. cbn [fst snd].
    split; [assumption |]. split; [congruence |]. split.
    + intros x Hx. destruct (in_dec Nat.eq_dec x ds) as [Hi | Hi].
      * rewrite (Hin x Hi). destruct (Nat.eq_dec x d) as [-> | Hne].
        -- rewrite Hd. apply tras_ajuste_idem.
        -- now rewrite (Hr x Hne).
      * rewrite (Hnin x Hi). destruct Hx as [<- | Hx]; [assumption |].
        contradiction.
    + intros x Hx. rewrite Hnin by (intros Hi; apply Hx; now right).
      apply Hr. intros ->. apply Hx. now left.
Qed.

End Luces.

(** ** One cycle of the loop *)

Lemma sleep_estado {S} (p : float) (s : S) :
  PyM.estado_final (Builtins.sleep p s) = s.
Proof.
  destruct p as [q | [|] |]; simpl; try reflexivity.
  destruct (Qle_bool 0 q); reflexivity.
Qed.

Section Ciclo.

Variable repr_float : float -> string.

(** The cycle reads the sensors, then every light of the list is as one
    call of [ajustar_intensidad] with 80 or 20 leaves it, and nothing else
    has changed since the readings; only the pause can make it raise. *)
Lemma ciclo_spec ds pausa umbral n w :
  let w1 := PyM.estado_final (PyM.for_ ds leer_sensor w) in
  let al := alarma_calor umbral (temperaturas ds w1) in
  let v := PyInt (if al then 80 else 20) in
  let r := ciclo_monitoreo repr_float ds pausa umbral n w in
  PyM.valor r = PyM.valor (Builtins.sleep pausa w)
  /\ lectura_ok w w1
  /\ (forall d, In d ds ->
        objs (PyM.estado_final r) d = tras_ajuste repr_float v (objs w1 d))
  /\ (forall d, ~ In d ds -> objs (PyM.estado_final r) d = objs w1 d).
Proof.
  cbv zeta. unfold ciclo_monitoreo.
  rewrite (bind_normal _ _ w tt w [_] eq_refl).
  destruct (leer_sensores_spec ds w) as [Hv1 Hok].
  destruct (PyM.for_ ds leer_sensor w) as [[r1 w1] o1] eqn:E1.
  unfold PyM.valor, PyM.estado_final in Hv1, Hok. cbn [fst snd] in Hv1, Hok.
  subst r1. rewrite (bind_normal _ _ _ _ _ _ E1).
  rewrite (bind_normal _ _ w1 (temperaturas ds w1) w1 [] eq_refl).
  set (al := alarma_calor umbral (temperaturas ds w1)).
  destruct (ajustar_luces_spec repr_float al ds w1) as (Hv2 & Hg2 & Hin & Hnin).
  destruct (PyM.for_ ds (ajustar_luz repr_float al) w1) as [[r2 w2] o2] eqn:E2.
  unfold PyM.valor, PyM.estado_final in Hv2, Hg2, Hin, Hnin.
  cbn [fst snd] in Hv2, Hg2, Hin, Hnin.
  subst r2. rewrite (bind_normal _ _ _ _ _ _ E2).
  destruct (mostrar_todos repr_float ds w2) as (Hv3 & Hm & Hg3).
  destruct (PyM.for_ ds (mostrar_datos repr_float) w2) as [[r3 w3] o3] eqn:E3.
  unfold PyM.valor, PyM.estado_final, mismos_objs in Hv3, Hm, Hg3.
  cbn [fst snd] in Hv3, Hm, Hg3.
  subst r3. rewrite (bind_normal _ _ _ _ _ _ E3).
  unfold PyM.valor, PyM.estado_final. cbn [fst snd].
  fold (PyM.estado_final (Builtins.sleep (S := mundo) pausa w3)).
  rewrite sleep_estado.
  split; [| split; [assumption | split]].
  - destruct pausa as [q | [|] |]; simpl; try reflexivity.
    destruct (Qle_bool 0 q); reflexivity.
  - intros d Hd. now rewrite Hm, Hin.
  - intros d Hd. now rewrite Hm, Hnin.
Qed.

End Ciclo.

Lemma lectura_ok_luz w w1 d a :
  lectura_ok w w1 -> objs w d = Luz a -> objs w1 d = Luz a.
Proof.
  intros [_ Hf] Ho. rewrite Hf; [assumption | |]; now rewrite Ho.
Qed.

(** ** The demonstration store, run *)

(** One cycle over the three devices with every draw at the top of the
    range: both readings are at their maximum, the alarm is raised and the
    light ends at 80. *)
Example ciclo_demo_alarma :
  let wf := PyM.estado_final
              (ciclo_monitoreo (fun _ => "") [0%nat; 1%nat; 2%nat]
                 (Fin (3 # 2)) (Fin 30) 1 (mundo_demo true (2 ^ 53 - 1))) in
  temperatura_de (objs wf 0%nat) = Some (Fin 40)
  /\ humedad_de (objs wf 1%nat) = Some (Fin 90)
  /\ intensidad_de (objs wf 2%nat) = Some (PyInt 80).
Proof. vm_compute. repeat split. Qed.

(** With every device off the readings are reset, there is no alarm and the
    light refuses the adjustment. *)
Example ciclo_demo_apagado :
  let wf := PyM.estado_final
              (ciclo_monitoreo (fun _ => "") [0%nat; 1%nat; 2%nat]
                 (Fin (3 # 2)) (Fin 30) 1 (mundo_demo false (2 ^ 53 - 1))) in
  temperatura_de (objs wf 0%nat) = Some (Fin 0)
  /\ humedad_de (objs wf 1%nat) = Some (Fin 0)
  /\ intensidad_de (objs wf 2%nat) = Some (PyInt 0).
Proof. vm_compute. repeat split. Qed.

(** * The claims *)

(** ** Construction *)

(** C6: immediately after construction every device is powered off, a
    temperature sensor stores 0.0, a humidity sensor stores 0.0 and a light
    actuator has intensity 0. *)
Theorem construccion_valores_iniciales (id : string) :
  DispositivoIoT.estado (DispositivoIoT.__init__ id) = false
  /\ estado_de (Temp (SensorTemperatura.__init__ id)) = false
  /\ estado_de (Hum (SensorHumedad.__init__ id)) = false
  /\ estado_de (Luz (ActuadorLuz.__init__ id)) = false
  /\ SensorTemperatura.temperatura (SensorTemperatura.__init__ id) = Fin 0
  /\ SensorHumedad.humedad (SensorHumedad.__init__ id) = Fin 0
  /\ ActuadorLuz.intensidad (ActuadorLuz.__init__ id) = PyInt 0
  /\ (forall o, In o [Base (DispositivoIoT.__init__ id);
                      Temp (SensorTemperatura.__init__ id);
                      Hum (SensorHumedad.__init__ id);
                      Luz (ActuadorLuz.__init__ id)] -> id_de o = id).
Proof.
  repeat split.
  intros o Ho. simpl in Ho.
  repeat (destruct Ho as [<- | Ho]; [reflexivity |]). contradiction.
Qed.

(** ** The light actuator *)

(** C2: on a powered actuator [ajustar_intensidad(v)] stores [v] exactly
    when [v] is an integer in [0, 100] and otherwise leaves the intensity as
    it was; 0 and 100 are stored, -1 and 101 are refused as out of range. *)
Theorem ajustar_intensidad_encendido
  (repr_float : float -> string) (a : ActuadorLuz.t) (v : pyval) :
  encendido a = true ->
  let ajustar := ActuadorLuz.ajustar_intensidad repr_float in
  let fuera := ["[ERROR] Valor fuera de rango (0-100). No se aplica cambio."] in
  let a' := PyM.estado_final (ajustar v a) in
  PyM.valor (ajustar v a) = Normal tt
  /\ ActuadorLuz.base a' = ActuadorLuz.base a
  /\ (entero_en_rango v -> ActuadorLuz.intensidad a' = v)
  /\ (~ entero_en_rango v -> a' = a)
  /\ PyM.estado_final (ajustar (PyInt 0) a)
     = ActuadorLuz.set_intensidad (PyInt 0) a
  /\ PyM.estado_final (ajustar (PyInt 100) a)
     = ActuadorLuz.set_intensidad (PyInt 100) a
  /\ ajustar (PyInt (-1)) a = (Normal tt, a, fuera)
  /\ ajustar (PyInt 101) a = (Normal tt, a, fuera).
Proof.
  intros He ajustar fuera a'. subst ajustar fuera a'.
  split; [apply ajustar_normal |].
  assert (Hcasos :
    (entero_en_rango v ->
     PyM.estado_final (ActuadorLuz.ajustar_intensidad repr_float v a)
     = ActuadorLuz.set_intensidad v a)
    /\ (~ entero_en_rango v ->
        PyM.estado_final (ActuadorLuz.ajustar_intensidad repr_float v a) = a)).
  { split.
    - intros (z & Hz & Hr). now rewrite (ajustar_en_rango _ a v z).
    - intros Hn. destruct (Builtins.int_de v) as [z |] eqn:Hz.
      + rewrite (ajustar_fuera_de_rango _ a v z); auto.
        intros Hr. apply Hn. now exists z.
      + rewrite ajustar_no_entero; auto. now apply int_de_isinstance. }
  destruct Hcasos as [Hsi Hno].
  split; [| split; [| split; [exact Hno |]]].
  - destruct (Builtins.int_de v) as [z |] eqn:Hz.
    + destruct (Z_le_dec 0 z) as [H0 |];
        [destruct (Z_le_dec z 100) as [H1 |] |].
      * rewrite Hsi; [reflexivity | now exists z].
      * rewrite Hno; [reflexivity |]. intros (z' & Hz' & Hr). simpl in *.
        replace z' with z in Hr by congruence. lia.
      * rewrite Hno; [reflexivity |]. intros (z' & Hz' & Hr). simpl in *.
        replace z' with z in Hr by congruence. lia.
    + rewrite Hno; [reflexivity |]. intros (z' & Hz' & _). congruence.
  - intros Hv. now rewrite (Hsi Hv).
  - repeat split.
    + now rewrite (ajustar_en_rango _ a (PyInt 0) 0).
    + now rewrite (ajustar_en_rango _ a (PyInt 100) 100).
    + apply (ajustar_fuera_de_rango _ a (PyInt (-1)) (-1)); auto. lia.
    + apply (ajustar_fuera_de_rango _ a (PyInt 101) 101); auto. lia.
Qed.

Lemma ajustar_intensidad_encendido_witness :
  encendido (luz_sala true (PyInt 20)) = true
  /\ ActuadorLuz.intensidad
       (PyM.estado_final
          (ActuadorLuz.ajustar_intensidad (fun _ => "") (PyInt 80)
             (luz_sala true (PyInt 20)))) = PyInt 80.
Proof.
  split; [reflexivity |].
  apply (ajustar_intensidad_encendido (fun _ => "") (luz_sala true (PyInt 20))
           (PyInt 80)); [reflexivity |].
  exists 80. split; [reflexivity | lia].
Defined.

(** C5: no input makes [ajustar_intensidad] raise, whatever its type or
    value; on an actuator that is off the call prints the warning, changes
    nothing and returns. *)
Theorem ajustar_intensidad_apagado
  (repr_float : float -> string) (a : ActuadorLuz.t) (v : pyval) :
  PyM.valor (ActuadorLuz.ajustar_intensidad repr_float v a) = Normal tt
  /\ (encendido a = false ->
      ActuadorLuz.ajustar_intensidad repr_float v a
      = (Normal tt, a, [aviso_apagado a])).
Proof.
  split; [apply ajustar_normal | apply ajustar_apagado].
Qed.

Lemma ajustar_intensidad_apagado_witness :
  encendido (luz_sala false (PyInt 20)) = false
  /\ ActuadorLuz.ajustar_intensidad (fun _ => "") (PyStr "alto")
       (luz_sala false (PyInt 20))
     = (Normal tt, luz_sala false (PyInt 20),
        ["[ADVERTENCIA] Luz_Sala está apagado; no se puede ajustar intensidad."]).
Proof.
  split; [reflexivity |].
  apply (ajustar_intensidad_apagado (fun _ => "") (luz_sala false (PyInt 20))
           (PyStr "alto")).
  reflexivity.
Defined.

(** C9: on a powered actuator the integer check lets Python's booleans
    through: [ajustar_intensidad(True)] stores [True], which is the integer
    1, and [ajustar_intensidad(False)] stores [False], the integer 0; neither
    is refused as a non-integer. *)
Theorem ajustar_intensidad_bool
  (repr_float : float -> string) (a : ActuadorLuz.t) (b : bool) :
  encendido a = true ->
  let r := ActuadorLuz.ajustar_intensidad repr_float (PyBool b) a in
  let n := if b then 1 else 0 in
  PyM.valor r = Normal tt
  /\ ActuadorLuz.intensidad (PyM.estado_final r) = PyBool b
  /\ Builtins.int_de (ActuadorLuz.intensidad (PyM.estado_final r)) = Some n
  /\ Builtins.eq (ActuadorLuz.intensidad (PyM.estado_final r)) (PyInt n) = true
  /\ PyM.salida r
     = ["[INFO] Intensidad de "
        ++ DispositivoIoT.id_dispositivo (ActuadorLuz.base a)
        ++ " ajustada a " ++ Builtins.str_bool b ++ "%"].
Proof.
  intros He r n. subst r n.
  rewrite (ajustar_en_rango _ a (PyBool b) (if b then 1 else 0));
    [| assumption | reflexivity | destruct b; lia].
  destruct b; repeat split.
Qed.

Lemma ajustar_intensidad_bool_witness :
  encendido (luz_sala true (PyInt 20)) = true
  /\ ActuadorLuz.intensidad
       (PyM.estado_final
          (ActuadorLuz.ajustar_intensidad (fun _ => "") (PyBool true)
             (luz_sala true (PyInt 20)))) = PyBool true.
Proof.
  split; [reflexivity |].
  apply (ajustar_intensidad_bool (fun _ => "") (luz_sala true (PyInt 20)) true).
  reflexivity.
Defined.

(** ** Power control *)

(** C7: [encender] and [apagar] always return, set the power flag to true
    respectively false, and leave everything else as it was: the identifier,
    the class, a sensor's stored reading, an actuator's intensity, every
    other object and the random generator. *)
Theorem encender_apagar_marco (d : ref) (w : mundo) (e : bool) :
  let r := (if e then encender d else apagar d) w in
  let o := objs w d in
  let o' := objs (PyM.estado_final r) d in
  PyM.valor r = Normal tt
  /\ o' = con_estado e o
  /\ estado_de o' = e
  /\ id_de o' = id_de o
  /\ clase_de o' = clase_de o
  /\ temperatura_de o' = temperatura_de o
  /\ humedad_de o' = humedad_de o
  /\ intensidad_de o' = intensidad_de o
  /\ (forall d', d' <> d -> objs (PyM.estado_final r) d' = objs w d')
  /\ azar (PyM.estado_final r) = azar w.
Proof.
  cbv zeta.
  assert (H : (if e then encender d else apagar d) w
              = (Normal tt, set_obj d (con_estado e (objs w d)) w,
                 PyM.salida ((if e then encender d else apagar d) w))).
  { destruct e; [rewrite encender_spec | rewrite apagar_spec]; reflexivity. }
  rewrite H. unfold PyM.valor, PyM.estado_final. simpl.
  rewrite actualizar_eq.
  destruct (con_estado_marco e (objs w d)) as (H1 & H2 & H3 & H4 & H5 & H6).
  repeat split; try assumption.
  intros d' Hd. now apply actualizar_neq.
Qed.

(** ** Reports *)

(** C8: any number of consecutive [mostrar_datos] calls on a device, in any
    power state, print the same lines each time and leave every object and
    the generator as they were. *)
Theorem mostrar_datos_idempotente
  (repr_float : float -> string) (d : ref) (n : nat) (w : mundo) :
  let r := PyM.for_ (repeat d n) (mostrar_datos repr_float) w in
  PyM.valor r = Normal tt
  /\ mismos_objs w (PyM.estado_final r)
  /\ azar (PyM.estado_final r) = azar w
  /\ PyM.salida r
     = List.concat (repeat (PyM.salida (mostrar_datos repr_float d w)) n).
Proof.
  revert w. induction n as [| n IH]; intros w; cbv zeta; simpl PyM.for_.
  - repeat split.
  - rewrite (bind_normal _ _ _ _ _ _ (mostrar_datos_spec repr_float d w)).
    destruct (IH (set_obj d (objs w d) w)) as (Hr & Hw & Hg & Ho).
    unfold PyM.valor, PyM.estado_final, PyM.salida in *. simpl.
    repeat split; try assumption.
    + intros x. rewrite Hw. simpl. apply actualizar_mismo.
    + rewrite Ho. do 3 f_equal.
      apply (mostrar_datos_salida repr_float d (set_obj d (objs w d) w) w).
      simpl. apply actualizar_eq.
Qed.

(** ** Sensors *)

(** C3: a reading taken while the sensor is off returns 0.0 and stores 0.0,
    whatever was stored before, for both kinds of sensor. *)
Theorem lectura_apagado
  (g : Random.rng) (st : SensorTemperatura.t) (sh : SensorHumedad.t) :
  DispositivoIoT.estado (SensorTemperatura.base st) = false ->
  DispositivoIoT.estado (SensorHumedad.base sh) = false ->
  let rt := SensorTemperatura.leer_temperatura (g, st) in
  let rh := SensorHumedad.leer_humedad (g, sh) in
  PyM.valor rt = Normal (Fin 0)
  /\ SensorTemperatura.temperatura (snd (PyM.estado_final rt)) = Fin 0
  /\ SensorTemperatura.base (snd (PyM.estado_final rt))
     = SensorTemperatura.base st
  /\ PyM.valor rh = Normal (Fin 0)
  /\ SensorHumedad.humedad (snd (PyM.estado_final rh)) = Fin 0
  /\ SensorHumedad.base (snd (PyM.estado_final rh)) = SensorHumedad.base sh.
Proof.
  intros Ht Hh. cbv zeta.
  rewrite (leer_temperatura_apagado g st Ht), (leer_humedad_apagado g sh Hh).
  repeat split.
Qed.

Lemma lectura_apagado_witness :
  DispositivoIoT.estado
    (SensorTemperatura.base (temp_01 false (Fin (2735 # 100)))) = false
  /\ PyM.valor (SensorTemperatura.leer_temperatura
                  (azar_fijo 7, temp_01 false (Fin (2735 # 100))))
     = Normal (Fin 0).
Proof.
  split; [reflexivity |].
  apply (lectura_apagado (azar_fijo 7) (temp_01 false (Fin (2735 # 100)))
           (hum_01 false (Fin (55 # 1)))); reflexivity.
Defined.

(** ** The monitoring loop *)

(** C1: in every cycle, with the readings the temperature sensors of the
    list hold after the sensing phase (humidity sensors and actuators do
    not count), the alarm is raised exactly when one reading is strictly
    above the threshold, and before the cycle ends every light actuator of
    the list has had [ajustar_intensidad] applied with 80 if the alarm is
    raised and with 20 if not: a powered one ends the cycle at that
    intensity, one that is off is left as it was. *)
Theorem regla_de_decision
  (repr_float : float -> string) (dispositivos : list ref)
  (pausa_seg umbral_temp : float) (ciclo : Z) (w : mundo) :
  let w1 := PyM.estado_final (PyM.for_ dispositivos leer_sensor w) in
  let alarma := alarma_calor umbral_temp (temperaturas dispositivos w1) in
  let v := PyInt (if alarma then 80 else 20) in
  let wf := PyM.estado_final
              (ciclo_monitoreo repr_float dispositivos pausa_seg umbral_temp
                 ciclo w) in
  (alarma = true <->
   exists d s, In d dispositivos /\ objs w1 d = Temp s
               /\ (SensorTemperatura.temperatura s >? umbral_temp)%float = true)
  /\ (forall d a, In d dispositivos -> objs w d = Luz a ->
        objs wf d
        = Luz (PyM.estado_final
                 (ActuadorLuz.ajustar_intensidad repr_float v a)))
  /\ (forall d a, In d dispositivos -> objs w d = Luz a ->
        encendido a = true -> intensidad_de (objs wf d) = Some v)
  /\ (forall d a, In d dispositivos -> objs w d = Luz a ->
        encendido a = false -> objs wf d = Luz a).
Proof.
  cbv zeta.
  destruct (ciclo_spec repr_float dispositivos pausa_seg umbral_temp ciclo w)
    as (_ & Hok & Hin & _).
  set (w1 := PyM.estado_final (PyM.for_ dispositivos leer_sensor w)) in *.
  set (al := alarma_calor umbral_temp (temperaturas dispositivos w1)) in *.
  assert (Hluz : forall d a, In d dispositivos -> objs w d = Luz a ->
            objs (PyM.estado_final
                    (ciclo_monitoreo repr_float dispositivos pausa_seg
                       umbral_temp ciclo w)) d
            = Luz (PyM.estado_final
                     (ActuadorLuz.ajustar_intensidad repr_float
                        (PyInt (if al then 80 else 20)) a))).
  { intros d a Hd Ho. rewrite (Hin d Hd).
    now rewrite (lectura_ok_luz w w1 d a Hok Ho). }
  split; [| split; [exact Hluz | split]].
  - unfold al, alarma_calor. rewrite existsb_exists. split.
    + intros (t & Ht & Hgt). apply temperaturas_In in Ht.
      destruct Ht as (d & s & Hd & Ho & <-). now exists d, s.
    + intros (d & s & Hd & Ho & Hgt).
      exists (SensorTemperatura.temperatura s). split; [| assumption].
      apply temperaturas_In. now exists d, s.
  - intros d a Hd Ho He. rewrite (Hluz d a Hd Ho). simpl.
    rewrite ajustar_estado_final, He.
    replace (valido (PyInt (if al then 80 else 20))) with true
      by (destruct al; reflexivity).
    reflexivity.
  - intros d a Hd Ho He. rewrite (Hluz d a Hd Ho).
    now rewrite ajustar_estado_final, He.
Qed.

Lemma regla_de_decision_witness :
  In 2%nat [0%nat; 1%nat; 2%nat]
  /\ objs (mundo_demo true (2 ^ 52)) 2%nat = Luz (luz_sala true (PyInt 0))
  /\ encendido (luz_sala true (PyInt 0)) = true
  /\ intensidad_de
       (objs (PyM.estado_final
                (ciclo_monitoreo (fun _ => "") [0%nat; 1%nat; 2%nat]
                   (Fin 0) (Fin 30) 1 (mundo_demo true (2 ^ 52)))) 2%nat)
     = Some (PyInt 20).
Proof.
  split; [simpl; auto |]. split; [reflexivity |]. split; [reflexivity |].
  pose proof (regla_de_decision (fun _ => "") [0%nat; 1%nat; 2%nat] (Fin 0)
                (Fin 30) 1 (mundo_demo true (2 ^ 52))) as H.
  cbv zeta in H. destruct H as (_ & _ & H & _).
  rewrite (H 2%nat (luz_sala true (PyInt 0))
             (or_intror (or_intror (or_introl eq_refl))) eq_refl eq_refl).
  assert (Ha : alarma_calor (Fin 30)
                 (temperaturas [0%nat; 1%nat; 2%nat]
                    (PyM.estado_final
                       (PyM.for_ [0%nat; 1%nat; 2%nat] leer_sensor
                          (mundo_demo true (2 ^ 52))))) = false)
    by (vm_compute; reflexivity).
  exact (f_equal (fun b : bool => Some (PyInt (if b then 80 else 20))) Ha).
Defined.

(** C10: in a cycle over a list with no temperature sensor the alarm is
    not raised, whatever the humidity sensors read and whether they are on
    or off, and every light actuator of the list has [ajustar_intensidad]
    applied with 20. *)
Theorem sin_sensores_de_temperatura
  (repr_float : float -> string) (dispositivos : list ref)
  (pausa_seg umbral_temp : float) (ciclo : Z) (w : mundo) :
  (forall d, In d dispositivos ->
             clase_de (objs w d) <> CSensorTemperatura) ->
  let w1 := PyM.estado_final (PyM.for_ dispositivos leer_sensor w) in
  let wf := PyM.estado_final
              (ciclo_monitoreo repr_float dispositivos pausa_seg umbral_temp
                 ciclo w) in
  alarma_calor umbral_temp (temperaturas dispositivos w1) = false
  /\ (forall d a, In d dispositivos -> objs w d = Luz a ->
        objs wf d
        = Luz (PyM.estado_final
                 (ActuadorLuz.ajustar_intensidad repr_float (PyInt 20) a)))
  /\ (forall d a, In d dispositivos -> objs w d = Luz a ->
        encendido a = true -> intensidad_de (objs wf d) = Some (PyInt 20)).
Proof.
  intros Hsin. cbv zeta.
  destruct (ciclo_spec repr_float dispositivos pausa_seg umbral_temp ciclo w)
    as (_ & Hok & Hin & _).
  set (w1 := PyM.estado_final (PyM.for_ dispositivos leer_sensor w)) in *.
  assert (Hts : temperaturas dispositivos w1 = []).
  { apply temperaturas_sin_sensores. intros d Hd.
    destruct Hok as [Hc _]. rewrite Hc. now apply Hsin. }
  rewrite Hts in *. simpl in Hin.
  assert (Hluz : forall d a, In d dispositivos -> objs w d = Luz a ->
            objs (PyM.estado_final
                    (ciclo_monitoreo repr_float dispositivos pausa_seg
                       umbral_temp ciclo w)) d
            = Luz (PyM.estado_final
                     (ActuadorLuz.ajustar_intensidad repr_float
                        (PyInt 20) a))).
  { intros d a Hd Ho. rewrite (Hin d Hd).
    now rewrite (lectura_ok_luz w w1 d a Hok Ho). }
  split; [reflexivity | split; [exact Hluz |]].
  intros d a Hd Ho He. rewrite (Hluz d a Hd Ho). simpl.
  now rewrite ajustar_estado_final, He.
Qed.

Lemma sin_sensores_de_temperatura_witness :
  (forall d, In d [1%nat; 2%nat] ->
             clase_de (objs (mundo_demo true 7) d) <> CSensorTemperatura)
  /\ alarma_calor (Fin 30)
       (temperaturas [1%nat; 2%nat]
          (PyM.estado_final
             (PyM.for_ [1%nat; 2%nat] leer_sensor (mundo_demo true 7))))
     = false.
Proof.
  assert (H : forall d, In d [1%nat; 2%nat] ->
                clase_de (objs (mundo_demo true 7) d) <> CSensorTemperatura).
  { intros d [<- | [<- | []]]; discriminate. }
  split; [exact H |].
  apply (sin_sensores_de_temperatura (fun _ => "") [1%nat; 2%nat] (Fin 0)
           (Fin 30) 1 (mundo_demo true 7) H).
Defined.

(** C4: a reading taken while the sensor is on returns the drawn value
    rounded to two decimals, which lies in [20, 40] for a temperature
    sensor and in [30, 90] for a humidity sensor, and the sensor stores
    the value it returns. *)
Theorem lectura_encendido
  (g : Random.rng) (st : SensorTemperatura.t) (sh : SensorHumedad.t) :
  DispositivoIoT.estado (SensorTemperatura.base st) = true ->
  DispositivoIoT.estado (SensorHumedad.base sh) = true ->
  let rt := SensorTemperatura.leer_temperatura (g, st) in
  let rh := SensorHumedad.leer_humedad (g, sh) in
  (exists t,
      PyM.valor rt = Normal (Fin t)
      /\ SensorTemperatura.temperatura (snd (PyM.estado_final rt)) = Fin t
      /\ (20 <= t <= 40)%Q
      /\ dos_decimales (Fin t)
      /\ Fin t = Float.round2 (uniforme_de (Fin 20) (Fin 40) (g 0%nat)))
  /\ (exists h,
         PyM.valor rh = Normal (Fin h)
         /\ SensorHumedad.humedad (snd (PyM.estado_final rh)) = Fin h
         /\ (30 <= h <= 90)%Q
         /\ dos_decimales (Fin h)
         /\ Fin h = Float.round2 (uniforme_de (Fin 30) (Fin 90) (g 0%nat))).
Proof.
  intros Ht Hh. cbv zeta.
  pose proof (leer_temperatura_encendido g st Ht) as Et.
  pose proof (leer_humedad_encendido g sh Hh) as Eh.
  cbv zeta in Et, Eh. rewrite Et, Eh.
  unfold PyM.valor, PyM.estado_final. cbn [fst snd].
  split.
  - destruct (uniforme_rango 20 40 (g 0%nat)) as (x & Hx & Hx1);
      [lia | reflexivity |].
    change (Fin (inject_Z 20)) with (Fin 20) in Hx.
    change (Fin (inject_Z 40)) with (Fin 40) in Hx.
    destruct (round2_rango x 20 40) as (t & n & Hr & Hr1 & Hn & _);
      [lia | reflexivity | assumption |].
    exists t. rewrite Hx, Hr. repeat split; try apply Hr1.
    now exists n.
  - destruct (uniforme_rango 30 90 (g 0%nat)) as (x & Hx & Hx1);
      [lia | reflexivity |].
    change (Fin (inject_Z 30)) with (Fin 30) in Hx.
    change (Fin (inject_Z 90)) with (Fin 90) in Hx.
    destruct (round2_rango x 30 90) as (h & n & Hr & Hr1 & Hn & _);
      [lia | reflexivity | assumption |].
    exists h. rewrite Hx, Hr. repeat split; try apply Hr1.
    now exists n.
Qed.

Lemma lectura_encendido_witness :
  DispositivoIoT.estado (SensorTemperatura.base (temp_01 true (Fin 0))) = true
  /\ exists t,
       PyM.valor (SensorTemperatura.leer_temperatura
                    (azar_fijo 7, temp_01 true (Fin 0))) = Normal (Fin t)
       /\ SensorTemperatura.temperatura
            (snd (PyM.estado_final
                    (SensorTemperatura.leer_temperatura
                       (azar_fijo 7, temp_01 true (Fin 0))))) = Fin t
       /\ (20 <= t <= 40)%Q
       /\ dos_decimales (Fin t)
       /\ Fin t = Float.round2 (uniforme_de (Fin 20) (Fin 40) 7).
Proof.
  split; [reflexivity |].
  apply (lectura_encendido (azar_fijo 7) (temp_01 true (Fin 0))
           (hum_01 true (Fin 0))); reflexivity.
Defined.

(** * Further properties of the code *)

(** ** Loops *)

(** A loop whose body never raises does not raise. *)
Lemma for_normal {S X} (f : X -> Py S unit) (xs : list X) :
  (forall x s, In x xs -> PyM.valor (f x s) = Normal tt) ->
  forall s, PyM.valor (PyM.for_ xs f s) = Normal tt.
Proof.
  induction xs as [| x xs IH]; intros Hf s; simpl PyM.for_.
  - reflexivity.
  - pose proof (Hf x s (or_introl eq_refl)) as Hx.
    destruct (f x s) as [[r s1] o1] eqn:E. unfold PyM.valor in Hx.
    cbn [fst] in Hx. subst r.
    rewrite (bind_normal _ _ _ _ _ _ E). unfold PyM.valor at 1. cbn [fst].
    apply IH. intros y s' Hy. apply Hf. now right.
Qed.

(** A relation that every round of the body keeps, raising or not, is kept
    by the loop. *)
Lemma for_invariante {S X} (R : S -> S -> Prop) (f : X -> Py S unit)
  (xs : list X) :
  (forall s, R s s) -> (forall s1 s2 s3, R s1 s2 -> R s2 s3 -> R s1 s3) ->
  (forall x s, In x xs -> R s (PyM.estado_final (f x s))) ->
  forall s, R s (PyM.estado_final (PyM.for_ xs f s)).
Proof.
  intros Hrefl Htrans. induction xs as [| x xs IH]; intros Hf s;
    simpl PyM.for_.
  - apply Hrefl.
  - pose proof (Hf x s (or_introl eq_refl)) as Hx.
    unfold PyM.bind. destruct (f x s) as [[[a | e] s1] o1] eqn:E;
      unfold PyM.estado_final in Hx; cbn [fst snd] in Hx.
    + assert (IH' : R s1 (PyM.estado_final (PyM.for_ xs f s1)))
        by (apply IH; intros y s' Hy; apply Hf; now right).
      destruct (PyM.for_ xs f s1) as [[r2 s2] o2].
      unfold PyM.estado_final in *. cbn [fst snd] in *.
      eapply Htrans; eassumption.
    + exact Hx.
Qed.

(** One more round at the end of a loop that did not raise. *)
Lemma for_app_normal {S X} (f : X -> Py S unit) (xs : list X) (x : X) s s1 o1 :
  PyM.for_ xs f s = (Normal tt, s1, o1) ->
  PyM.for_ (xs ++ [x]) f s
  = (PyM.valor (f x s1), PyM.estado_final (f x s1),
     (o1 ++ PyM.salida (f x s1))%list).
Proof.
  revert s s1 o1. induction xs as [| y xs IH]; intros s s1 o1 H;
    simpl PyM.for_ in *.
  - unfold PyM.ret in H. inversion H; subst.
    unfold PyM.bind. destruct (f x s1) as [[[[] | e] s2] o2]; simpl;
      now rewrite ?app_nil_r.
  - unfold PyM.bind in *. destruct (f y s) as [[[[] | e] s2] o2];
      [| discriminate].
    destruct (PyM.for_ xs f s2) as [[r3 s3] o3] eqn:E3.
    inversion H; subst.
    rewrite (IH s2 s1 o3 E3). unfold PyM.valor, PyM.estado_final, PyM.salida.
    cbn [fst snd]. now rewrite app_assoc.
Qed.

(** ** A reading, in full *)

Lemma avanzar_0 (g : Random.rng) i : avanzar 0 g i = g i.
Proof. unfold avanzar. now rewrite Nat.add_0_r. Qed.

Lemma avanzar_suma n m (g : Random.rng) i :
  avanzar n (avanzar m g) i = avanzar (m + n) g i.
Proof. unfold avanzar. f_equal. lia. Qed.

(** The value is valid for the power state, and exactly one number is
    drawn when the sensor is on, none when it is off. *)
Lemma leer_temperatura_post (g : Random.rng) s :
  let e := DispositivoIoT.estado (SensorTemperatura.base s) in
  exists v,
    SensorTemperatura.leer_temperatura (g, s)
    = (Normal v,
       (if e then (fun n => g (S n)) else g,
        SensorTemperatura.set_temperatura v s), [])
    /\ lectura_valida 20 40 e v.
Proof.
  cbv zeta.
  destruct (DispositivoIoT.estado (SensorTemperatura.base s)) eqn:He.
  - pose proof (leer_temperatura_encendido g s He) as E. cbv zeta in E.
    eexists. split; [exact E |].
    destruct (uniforme_rango 20 40 (g 0%nat)) as (x & Hx & Hx1);
      [lia | reflexivity |].
    change (Fin (inject_Z 20)) with (Fin 20) in Hx.
    change (Fin (inject_Z 40)) with (Fin 40) in Hx.
    destruct (round2_rango x 20 40) as (t & n & Hr & Hr1 & Hn & _);
      [lia | reflexivity | assumption |].
    rewrite Hx, Hr. simpl. exists t. repeat split; try apply Hr1.
    now exists n.
  - exists (Fin 0). split; [now apply leer_temperatura_apagado |].
    reflexivity.
Qed.

Lemma leer_humedad_post (g : Random.rng) s :
  let e := DispositivoIoT.estado (SensorHumedad.base s) in
  exists v,
    SensorHumedad.leer_humedad (g, s)
    = (Normal v,
       (if e then (fun n => g (S n)) else g,
        SensorHumedad.set_humedad v s), [])
    /\ lectura_valida 30 90 e v.
Proof.
  cbv zeta.
  destruct (DispositivoIoT.estado (SensorHumedad.base s)) eqn:He.
  - pose proof (leer_humedad_encendido g s He) as E. cbv zeta in E.
    eexists. split; [exact E |].
    destruct (uniforme_rango 30 90 (g 0%nat)) as (x & Hx & Hx1);
      [lia | reflexivity |].
    change (Fin (inject_Z 30)) with (Fin 30) in Hx.
    change (Fin (inject_Z 90)) with (Fin 90) in Hx.
    destruct (round2_rango x 30 90) as (t & n & Hr & Hr1 & Hn & _);
      [lia | reflexivity | assumption |].
    rewrite Hx, Hr. simpl. exists t. repeat split; try apply Hr1.
    now exists n.
  - exists (Fin 0). split; [now apply leer_humedad_apagado |].
    reflexivity.
Qed.

(** ** The sensing phase on the store *)

Lemma marco_refl ds w : marco ds w w.
Proof. split; intros; [split |]; reflexivity. Qed.

Lemma marco_trans ds w1 w2 w3 :
  marco ds w1 w2 -> marco ds w2 w3 -> marco ds w1 w3.
Proof.
  intros [Ha Hb] [Hc Hd]. split.
  - intros r. destruct (Ha r) as [A1 A2]. destruct (Hc r) as [C1 C2].
    split; congruence.
  - intros r Hr. rewrite (Hd r Hr). now apply Hb.
Qed.

(** Replacing the object behind [d], a member of the list, by one of the
    same class with the same base part. *)
Lemma marco_set_obj ds d o w :
  In d ds -> clase_de o = clase_de (objs w d) ->
  base_de o = base_de (objs w d) -> marco ds w (set_obj d o w).
Proof.
  intros Hd Hc Hb. split.
  - intros r. simpl. unfold actualizar.
    destruct (Nat.eqb_spec r d) as [-> |]; [split; assumption |].
    split; reflexivity.
  - intros r Hr. simpl. apply actualizar_neq. intros ->. contradiction.
Qed.

Lemma sensor_encendido_marco ds w w' r :
  marco ds w w' ->
  sensor_encendido (objs w' r) = sensor_encendido (objs w r).
Proof.
  intros [H _]. destruct (H r) as [Hc Hb].
  unfold sensor_encendido, estado_de. rewrite Hb.
  destruct (objs w r), (objs w' r); simpl in Hc; try discriminate;
    reflexivity.
Qed.

Lemma lecturas_marco ds ds' w w' :
  marco ds w w' -> lecturas ds' w' = lecturas ds' w.
Proof.
  intros H. unfold lecturas. f_equal. apply filter_ext.
  intros r. now apply (sensor_encendido_marco ds).
Qed.

(** One sensor read: what it leaves behind [d], elsewhere and in the
    generator. *)
Lemma leer_sensor_post d w :
  exists w1,
    leer_sensor d w = (Normal tt, w1, [])
    /\ sensor_leido (objs w1 d)
    /\ clase_de (objs w1 d) = clase_de (objs w d)
    /\ base_de (objs w1 d) = base_de (objs w d)
    /\ (forall r, r <> d -> objs w1 r = objs w r)
    /\ (forall i, azar w1 i
                  = avanzar (if sensor_encendido (objs w d) then 1 else 0)
                      (azar w) i).
Proof.
  unfold leer_sensor.
  destruct (objs w d) as [b | s | s | a] eqn:Ho.
  - exists w. unfold PyM.bind, PyM.gets. rewrite Ho.
    repeat split; try (now rewrite Ho). intros i. now rewrite avanzar_0.
  - destruct (leer_temperatura_post (azar w) s) as (v & Hl & Hv).
    cbv zeta in Hl. eexists. split.
    + unfold PyM.bind at 1. unfold PyM.gets. rewrite Ho.
      unfold invocar_azar, PyM.bind, PyM.zoom, PyM.ret. rewrite Hl.
      cbn [fst snd]. reflexivity.
    + simpl. rewrite actualizar_eq. repeat split.
      * exact Hv.
      * intros r Hr. now apply actualizar_neq.
      * intros i. unfold sensor_encendido, estado_de. simpl.
        destruct (DispositivoIoT.estado (SensorTemperatura.base s)).
        -- unfold avanzar. f_equal. lia.
        -- now rewrite avanzar_0.
  - destruct (leer_humedad_post (azar w) s) as (v & Hl & Hv).
    cbv zeta in Hl. eexists. split.
    + unfold PyM.bind at 1. unfold PyM.gets. rewrite Ho.
      unfold invocar_azar, PyM.bind, PyM.zoom, PyM.ret. rewrite Hl.
      cbn [fst snd]. reflexivity.
    + simpl. rewrite actualizar_eq. repeat split.
      * exact Hv.
      * intros r Hr. now apply actualizar_neq.
      * intros i. unfold sensor_encendido, estado_de. simpl.
        destruct (DispositivoIoT.estado (SensorHumedad.base s)).
        -- unfold avanzar. f_equal. lia.
        -- now rewrite avanzar_0.
  - exists w. unfold PyM.bind, PyM.gets. rewrite Ho.
    repeat split; try (now rewrite Ho). intros i. now rewrite avanzar_0.
Qed.

Lemma marco_incl xs ds w w' :
  incl xs ds -> marco xs w w' -> marco ds w w'.
Proof.
  intros Hi [Ha Hb]. split; [assumption |].
  intros r Hr. apply Hb. intros Hx. apply Hr. now apply Hi.
Qed.

Lemma lecturas_cons d ds w :
  lecturas (d :: ds) w
  = ((if sensor_encendido (objs w d) then 1 else 0) + lecturas ds w)%nat.
Proof.
  unfold lecturas. simpl. now destruct (sensor_encendido (objs w d)).
Qed.

(** The whole sensing phase. *)
Lemma leer_sensores_post ds : forall w,
  let r := PyM.for_ ds leer_sensor w in
  PyM.valor r = Normal tt
  /\ PyM.salida r = []
  /\ marco ds w (PyM.estado_final r)
  /\ (forall d, In d ds -> sensor_leido (objs (PyM.estado_final r) d))
  /\ (forall i, azar (PyM.estado_final r) i
                = avanzar (lecturas ds w) (azar w) i).
Proof.
  induction ds as [| d ds IH]; intros w; cbv zeta; simpl PyM.for_.
  - split; [reflexivity |]. split; [reflexivity |].
    split; [apply marco_refl |]. split; [intros d [] |].
    intros i. unfold lecturas. simpl. now rewrite avanzar_0.
  - destruct (leer_sensor_post d w) as (w1 & Hl & Hs & Hc & Hb & Hr & Hg).
    rewrite (bind_normal _ _ _ _ _ _ Hl).
    destruct (IH w1) as (Hv & Ho & Hm & Hall & Hg1).
    unfold PyM.valor, PyM.estado_final, PyM.salida in *. cbn [fst snd].
    assert (Hm1 : marco (d :: ds) w w1).
    { split.
      - intros r. destruct (Nat.eq_dec r d) as [-> | Hne];
          [split; assumption |]. rewrite (Hr r Hne). split; reflexivity.
      - intros r Hin. apply Hr. intros ->. apply Hin. now left. }
    split; [assumption |]. split; [now rewrite Ho |].
    split; [| split].
    + apply marco_trans with w1; [assumption |].
      apply marco_incl with ds; [| assumption].
      intros x Hx. now right.
    + intros x [<- | Hx]; [| now apply Hall].
      destruct (in_dec Nat.eq_dec d ds) as [Hi | Hi]; [now apply Hall |].
      destruct Hm as [_ Hf]. now rewrite (Hf d Hi).
    + intros i. rewrite Hg1, lecturas_cons.
      rewrite (lecturas_marco (d :: ds) ds w w1 Hm1).
      unfold avanzar at 1. rewrite Hg. unfold avanzar. f_equal. lia.
Qed.

(** ** The other phases and the cycle *)

Section CicloCompleto.

Variable repr_float : float -> string.

Lemma tras_ajuste_base v o :
  clase_de (tras_ajuste repr_float v o) = clase_de o
  /\ base_de (tras_ajuste repr_float v o) = base_de o.
Proof.
  destruct o as [b | s | s | a]; try (split; reflexivity). simpl.
  rewrite ajustar_estado_final.
  destruct (encendido a && valido v); split; reflexivity.
Qed.

Lemma tras_ajuste_sensor v o :
  temperatura_de (tras_ajuste repr_float v o) = temperatura_de o
  /\ humedad_de (tras_ajuste repr_float v o) = humedad_de o
  /\ (sensor_leido o -> sensor_leido (tras_ajuste repr_float v o)).
Proof. destruct o; repeat split; auto. Qed.

(** The generator is only touched by the sensing phase. *)
Lemma ciclo_azar ds pausa umbral n w :
  azar (PyM.estado_final (ciclo_monitoreo repr_float ds pausa umbral n w))
  = azar (PyM.estado_final (PyM.for_ ds leer_sensor w)).
Proof.
  unfold ciclo_monitoreo.
  rewrite (bind_normal _ _ w tt w [_] eq_refl).
  destruct (leer_sensores_spec ds w) as [Hv1 _].
  destruct (PyM.for_ ds leer_sensor w) as [[r1 w1] o1] eqn:E1.
  unfold PyM.valor in Hv1. cbn [fst] in Hv1. subst r1.
  rewrite (bind_normal _ _ _ _ _ _ E1).
  rewrite (bind_normal _ _ w1 (temperaturas ds w1) w1 [] eq_refl).
  set (al := alarma_calor umbral (temperaturas ds w1)).
  destruct (ajustar_luces_spec repr_float al ds w1) as (Hv2 & Hg2 & _).
  destruct (PyM.for_ ds (ajustar_luz repr_float al) w1) as [[r2 w2] o2] eqn:E2.
  unfold PyM.valor, PyM.estado_final in Hv2, Hg2. cbn [fst snd] in Hv2, Hg2.
  subst r2. rewrite (bind_normal _ _ _ _ _ _ E2).
  destruct (mostrar_todos repr_float ds w2) as (Hv3 & _ & Hg3).
  destruct (PyM.for_ ds (mostrar_datos repr_float) w2) as [[r3 w3] o3] eqn:E3.
  unfold PyM.valor, PyM.estado_final in Hv3, Hg3. cbn [fst snd] in Hv3, Hg3.
  subst r3. rewrite (bind_normal _ _ _ _ _ _ E3).
  unfold PyM.estado_final. cbn [fst snd].
  fold (PyM.estado_final (Builtins.sleep (S := mundo) pausa w3)).
  rewrite sleep_estado. congruence.
Qed.

Lemma temperaturas_ext ds w w' :
  (forall d, In d ds -> temperatura_de (objs w' d) = temperatura_de (objs w d)) ->
  temperaturas ds w' = temperaturas ds w.
Proof.
  intros H. unfold temperaturas. induction ds as [| d ds IH]; simpl;
    [reflexivity |].
  rewrite IH by (intros x Hx; apply H; now right).
  f_equal. pose proof (H d (or_introl eq_refl)) as Hd.
  destruct (objs w d), (objs w' d); simpl in Hd; congruence.
Qed.

(** What one cycle leaves, from any store. *)
Lemma ciclo_post ds pausa umbral n w :
  let r := ciclo_monitoreo repr_float ds pausa umbral n w in
  let wf := PyM.estado_final r in
  let alarma := alarma_calor umbral (temperaturas ds wf) in
  PyM.valor r = PyM.valor (Builtins.sleep pausa w)
  /\ marco ds w wf
  /\ (forall d, In d ds -> sensor_leido (objs wf d))
  /\ (forall d a, In d ds -> objs wf d = Luz a -> encendido a = true ->
        ActuadorLuz.intensidad a = PyInt (if alarma then 80 else 20))
  /\ (forall i, azar wf i = avanzar (lecturas ds w) (azar w) i).
Proof.
  cbv zeta.
  destruct (ciclo_spec repr_float ds pausa umbral n w)
    as (Hv & _ & Hin & Hnin).
  destruct (leer_sensores_post ds w) as (_ & _ & Hm1 & Hl1 & Hg1).
  rewrite ciclo_azar.
  set (w1 := PyM.estado_final (PyM.for_ ds leer_sensor w)) in *.
  set (wf := PyM.estado_final
               (ciclo_monitoreo repr_float ds pausa umbral n w)) in *.
  set (v := PyInt (if alarma_calor umbral (temperaturas ds w1)
                   then 80 else 20)) in *.
  assert (Ht : temperaturas ds wf = temperaturas ds w1).
  { apply temperaturas_ext. intros d Hd. rewrite (Hin d Hd).
    apply tras_ajuste_sensor. }
  rewrite Ht. fold v.
  split; [assumption |]. split; [| split; [| split; [| assumption]]].
  - apply marco_trans with w1; [assumption |]. split.
    + intros r. destruct (in_dec Nat.eq_dec r ds) as [Hi | Hi].
      * rewrite (Hin r Hi). apply tras_ajuste_base.
      * rewrite (Hnin r Hi). split; reflexivity.
    + assumption.
  - intros d Hd. rewrite (Hin d Hd). apply tras_ajuste_sensor.
    now apply Hl1.
  - intros d a Hd Ho He. rewrite (Hin d Hd) in Ho.
    destruct (objs w1 d) as [b | s | s | a0]; simpl in Ho; try discriminate.
    injection Ho as Ho. rewrite ajustar_estado_final in Ho.
    assert (Hval : valido v = true) by (unfold v; now destruct alarma_calor).
    rewrite Hval, andb_true_r in Ho.
    destruct (encendido a0) eqn:E0; subst a; [reflexivity | congruence].
Qed.

End CicloCompleto.

(** ** The run *)


Lemma range1_vacio (n : Z) : n <= 0 -> range1 n = [].
Proof.
  intros H. unfold range1.
  replace (Z.to_nat n) with 0%nat by lia. reflexivity.
Qed.


Lemma range1_ultimo (m : nat) :
  map (fun i => Z.of_nat i) (seq 1 (S m))
  = (map (fun i => Z.of_nat i) (seq 1 m) ++ [Z.of_nat (S m)])%list.
Proof. now rewrite seq_S, map_app. Qed.

Lemma sleep_valida {S} (q : Q) (s : S) :
  (0 <= q)%Q -> Builtins.sleep (Fin q) s = (Normal tt, s, []).
Proof.
  intros H. simpl. apply Qle_bool_iff in H. now rewrite H.
Qed.


Section Corrida.

Variable repr_float : float -> string.
Variable dispositivos : list ref.
Variable umbral_temp : float.

Local Notation "'cuerpo' p" :=
  (ciclo_monitoreo repr_float dispositivos p umbral_temp) (at level 10).

(** The cycles of a run with a valid pause: none raises, the frame holds,
    and each draws as many numbers as the first. *)
Lemma bucle_post (q : Q) (m : nat) : forall w,
  (0 <= q)%Q ->
  let r := PyM.for_ (map (fun i => Z.of_nat i) (seq 1 m)) (cuerpo (Fin q)) w in
  PyM.valor r = Normal tt
  /\ marco dispositivos w (PyM.estado_final r)
  /\ (forall i, azar (PyM.estado_final r) i
                = avanzar (m * lecturas dispositivos w) (azar w) i).
Proof.
  intros w Hq. cbv zeta. induction m as [| m IH].
  - simpl. split; [reflexivity |]. split; [apply marco_refl |].
    intros i. now rewrite avanzar_0.
  - destruct IH as (Hv & Hm & Hg).
    destruct (PyM.for_ (map (fun i => Z.of_nat i) (seq 1 m))
                (cuerpo (Fin q)) w) as [[r1 w1] o1] eqn:E.
    unfold PyM.valor, PyM.estado_final in Hv, Hm, Hg.
    cbn [fst snd] in Hv, Hm, Hg. subst r1.
    rewrite range1_ultimo, (for_app_normal _ _ _ _ _ _ E).
    destruct (ciclo_post repr_float dispositivos (Fin q) umbral_temp
                (Z.of_nat (S m)) w1) as (Hv1 & Hm1 & _ & _ & Hg1).
    unfold PyM.valor at 1. unfold PyM.estado_final at 1 2. cbn [fst snd].
    split; [| split].
    + rewrite Hv1. now rewrite sleep_valida.
    + now apply marco_trans with w1.
    + intros i. rewrite Hg1.
      rewrite (lecturas_marco dispositivos dispositivos w w1 Hm).
      unfold avanzar at 1. rewrite Hg. unfold avanzar. f_equal. lia.
Qed.

(** The last cycle of a run with a valid pause decides what the run
    leaves. *)
Lemma bucle_ultimo (q : Q) (m : nat) w :
  (0 <= q)%Q ->
  exists w1,
    marco dispositivos w w1
    /\ PyM.estado_final
         (PyM.for_ (map (fun i => Z.of_nat i) (seq 1 (S m))) (cuerpo (Fin q)) w)
       = PyM.estado_final (cuerpo (Fin q) (Z.of_nat (S m)) w1).
Proof.
  intros Hq. destruct (bucle_post q m w Hq) as (Hv & Hm & _).
  destruct (PyM.for_ (map (fun i => Z.of_nat i) (seq 1 m))
              (cuerpo (Fin q)) w) as [[r1 w1] o1] eqn:E.
  unfold PyM.valor, PyM.estado_final in Hv, Hm. cbn [fst snd] in Hv, Hm.
  subst r1. exists w1. split; [assumption |].
  now rewrite range1_ultimo, (for_app_normal _ _ _ _ _ _ E).
Qed.

(** The state a run leaves is the one its loop leaves. *)
Lemma simulacion_estado ciclos pausa w :
  PyM.estado_final
    (simulacion_monitoreo repr_float dispositivos ciclos pausa umbral_temp w)
  = PyM.estado_final (PyM.for_ (range1 ciclos) (cuerpo pausa) w).
Proof.
  unfold simulacion_monitoreo.
  rewrite (bind_normal _ _ w tt w [_] eq_refl).
  unfold PyM.estado_final at 1. cbn [fst snd].
  unfold PyM.bind.
  destruct (PyM.for_ (range1 ciclos) (cuerpo pausa) w) as [[[[] | e] w1] o1];
    reflexivity.
Qed.

Lemma simulacion_valor ciclos pausa w :
  PyM.valor
    (simulacion_monitoreo repr_float dispositivos ciclos pausa umbral_temp w)
  = PyM.valor (PyM.for_ (range1 ciclos) (cuerpo pausa) w).
Proof.
  unfold simulacion_monitoreo.
  rewrite (bind_normal _ _ w tt w [_] eq_refl).
  unfold PyM.valor at 1. cbn [fst snd].
  unfold PyM.bind.
  destruct (PyM.for_ (range1 ciclos) (cuerpo pausa) w) as [[[[] | e] w1] o1];
    reflexivity.
Qed.

End Corrida.

(** ** Properties of a run *)



(** X2: a run, however it ends, leaves every object in its class with its
    identifier and power flag, and does not touch an object that is not in
    the list. *)
Theorem simulacion_marco
  (repr_float : float -> string) (dispositivos : list ref) (ciclos : Z)
  (pausa_seg umbral_temp : float) (w : mundo) :
  let wf := PyM.estado_final
              (simulacion_monitoreo repr_float dispositivos ciclos pausa_seg
                 umbral_temp w) in
  (forall r, clase_de (objs wf r) = clase_de (objs w r)
             /\ id_de (objs wf r) = id_de (objs w r)
             /\ estado_de (objs wf r) = estado_de (objs w r))
  /\ (forall r, ~ In r dispositivos -> objs wf r = objs w r).
Proof.
  cbv zeta. rewrite simulacion_estado.
  assert (Hm : marco dispositivos w
                 (PyM.estado_final
                    (PyM.for_ (range1 ciclos)
                       (ciclo_monitoreo repr_float dispositivos pausa_seg
                          umbral_temp) w))).
  { apply (for_invariante (marco dispositivos)).
    - apply marco_refl.
    - apply marco_trans.
    - intros n s _.
      apply (ciclo_post repr_float dispositivos pausa_seg umbral_temp n s). }
  destruct Hm as [Ha Hb]. split; [| assumption].
  intros r. destruct (Ha r) as [Hc Hbase]. unfold id_de, estado_de.
  rewrite Hbase. repeat split. assumption.
Qed.



(** X4: with zero or a negative number of cycles the loop body never runs:
    the run prints its two banners and changes nothing, and the pause is
    never looked at, so even an invalid one does no harm. *)
Theorem simulacion_sin_ciclos
  (repr_float : float -> string) (dispositivos : list ref) (ciclos : Z)
  (pausa_seg umbral_temp : float) (w : mundo) :
  ciclos <= 0 ->
  simulacion_monitoreo repr_float dispositivos ciclos pausa_seg umbral_temp w
  = (Normal tt, w, [linea_inicio; linea_fin]).
Proof.
  intros H. unfold simulacion_monitoreo. rewrite (range1_vacio ciclos H).
  reflexivity.
Qed.

Lemma simulacion_sin_ciclos_witness :
  0 <= 0
  /\ simulacion_monitoreo (fun _ => "") [0%nat; 1%nat; 2%nat] 0 NaN (Fin 30)
       (mundo_demo true 7)
     = (Normal tt, mundo_demo true 7, [linea_inicio; linea_fin]).
Proof.
  split; [lia |].
  apply (simulacion_sin_ciclos (fun _ => "") [0%nat; 1%nat; 2%nat] 0 NaN
           (Fin 30) (mundo_demo true 7)).
  lia.
Defined.



(** X6: after a run of at least one cycle with a valid pause every sensor
    of the list holds a valid reading (0.0 if it is off, a two-decimal
    value of its range if it is on), and every light of the list that is on
    is at the intensity the final temperature readings call for: 80 if one
    of them is above the threshold, 20 if none is. *)
Theorem simulacion_estado_final
  (repr_float : float -> string) (dispositivos : list ref) (ciclos : Z)
  (q : Q) (umbral_temp : float) (w : mundo) :
  (0 <= q)%Q -> 1 <= ciclos ->
  let wf := PyM.estado_final
              (simulacion_monitoreo repr_float dispositivos ciclos (Fin q)
                 umbral_temp w) in
  let alarma := alarma_calor umbral_temp (temperaturas dispositivos wf) in
  (forall d, In d dispositivos -> sensor_leido (objs wf d))
  /\ (forall d a, In d dispositivos -> objs wf d = Luz a ->
        encendido a = true ->
        ActuadorLuz.intensidad a = PyInt (if alarma then 80 else 20)).
Proof.
  intros Hq Hc. cbv zeta. rewrite simulacion_estado. unfold range1.
  destruct (Z.to_nat ciclos) as [| m] eqn:E; [lia |].
  destruct (bucle_ultimo repr_float dispositivos umbral_temp q m w Hq)
    as (w1 & _ & ->).
  destruct (ciclo_post repr_float dispositivos (Fin q) umbral_temp
              (Z.of_nat (S m)) w1) as (_ & _ & Hs & Hl & _).
  split; assumption.
Qed.

Lemma simulacion_estado_final_witness :
  (0 <= 3 # 2)%Q /\ 1 <= 5
  /\ forall d, In d [0%nat; 1%nat; 2%nat] ->
       sensor_leido
         (objs (PyM.estado_final
                  (simulacion_monitoreo (fun _ => "") [0%nat; 1%nat; 2%nat] 5
                     (Fin (3 # 2)) (Fin 30) (mundo_demo true 7))) d).
Proof.
  assert (H : (0 <= 3 # 2)%Q) by (unfold Qle; simpl; lia).
  assert (H1 : 1 <= 5) by lia.
  split; [exact H |]. split; [exact H1 |].
  apply (simulacion_estado_final (fun _ => "") [0%nat; 1%nat; 2%nat] 5
           (3 # 2) (Fin 30) (mundo_demo true 7) H H1).
Defined.

(** ** The reports of a cycle *)

(** X7: the report phase prints, for the devices in the order of the list,
    exactly what each device's own report prints, one after the other; a
    device that is twice in the list is reported twice. *)
Theorem reportes_en_orden
  (repr_float : float -> string) (dispositivos : list ref) (w : mundo) :
  PyM.salida (PyM.for_ dispositivos (mostrar_datos repr_float) w)
  = List.concat
      (map (fun d => PyM.salida (mostrar_datos repr_float d w)) dispositivos).
Proof.
  assert (H : forall w', mismos_objs w w' ->
            PyM.salida (PyM.for_ dispositivos (mostrar_datos repr_float) w')
            = List.concat
                (map (fun d => PyM.salida (mostrar_datos repr_float d w))
                   dispositivos)).
  { induction dispositivos as [| d ds IH]; intros w' Hw; simpl;
      [reflexivity |].
    rewrite (bind_normal _ _ _ _ _ _ (mostrar_datos_spec repr_float d w')).
    unfold PyM.salida at 1. cbn [snd]. f_equal.
    - apply mostrar_datos_salida. apply Hw.
    - apply IH. intros r. simpl. rewrite actualizar_mismo. apply Hw. }
  apply H. intros r. reflexivity.
Qed.

(** ** Thresholds and the range of the readings *)

Lemma marco_temp ds w w' d s :
  marco ds w w' -> objs w d = Temp s ->
  exists s', objs w' d = Temp s'
             /\ SensorTemperatura.base s' = SensorTemperatura.base s.
Proof.
  intros [H _] Ho. destruct (H d) as [Hc Hb]. rewrite Ho in Hc, Hb.
  destruct (objs w' d) as [b | s' | s' | a]; simpl in Hc; try discriminate.
  now exists s'.
Qed.

Lemma marco_temp_inv ds w w' d s' :
  marco ds w w' -> objs w' d = Temp s' ->
  exists s, objs w d = Temp s
            /\ SensorTemperatura.base s = SensorTemperatura.base s'.
Proof.
  intros [H _] Ho. destruct (H d) as [Hc Hb]. rewrite Ho in Hc, Hb.
  destruct (objs w d) as [b | s | s | a]; simpl in Hc; try discriminate.
  now exists s.
Qed.

Lemma gtb_Fin (x q : Q) :
  Float.gtb (Fin x) (Fin q) = true <-> (q < x)%Q.
Proof.
  unfold Float.gtb, Float.ltb. rewrite negb_true_iff. split.
  - intros H. apply Qnot_le_lt. intros Hle.
    apply Qle_bool_iff in Hle. congruence.
  - intros H. destruct (Qle_bool x q) eqn:E; [| reflexivity].
    apply Qle_bool_iff in E. exfalso.
    apply (Qlt_irrefl q). now apply Qlt_le_trans with x.
Qed.

Section Umbrales.

Variable repr_float : float -> string.
Variable dispositivos : list ref.
Variable pausa_seg : float.
Variable ciclo : Z.
Variable w : mundo.

Local Notation "'tras' u" :=
  (PyM.estado_final
     (ciclo_monitoreo repr_float dispositivos pausa_seg u ciclo w))
  (at level 10).

(** The alarm of a cycle, in terms of the sensors after it. *)
Lemma alarma_final u :
  alarma_calor u (temperaturas dispositivos (tras u)) = true
  <-> exists d s, In d dispositivos /\ objs (tras u) d = Temp s
                  /\ Float.gtb (SensorTemperatura.temperatura s) u = true
                  /\ lectura_valida 20 40
                       (DispositivoIoT.estado (SensorTemperatura.base s))
                       (SensorTemperatura.temperatura s).
Proof.
  destruct (ciclo_post repr_float dispositivos pausa_seg u ciclo w)
    as (_ & _ & Hs & _).
  unfold alarma_calor. rewrite existsb_exists. split.
  - intros (t & Ht & Hgt). apply temperaturas_In in Ht.
    destruct Ht as (d & s & Hd & Ho & <-). exists d, s.
    repeat split; try assumption.
    specialize (Hs d Hd). now rewrite Ho in Hs.
  - intros (d & s & Hd & Ho & Hgt & _).
    exists (SensorTemperatura.temperatura s). split; [| assumption].
    apply temperaturas_In. now exists d, s.
Qed.

(** X8: with a threshold of 40 or more, plus infinity or NaN, no cycle
    raises the alarm, whatever the generator draws, and every light of the
    list that is on ends the cycle at 20. *)
Theorem umbral_alto_sin_alarma (u : float) :
  umbral_alto u ->
  alarma_calor u (temperaturas dispositivos (tras u)) = false
  /\ (forall d a, In d dispositivos -> objs (tras u) d = Luz a ->
        encendido a = true -> ActuadorLuz.intensidad a = PyInt 20).
Proof.
  intros Hu.
  assert (Ha : alarma_calor u (temperaturas dispositivos (tras u)) = false).
  { destruct (alarma_calor u (temperaturas dispositivos (tras u))) eqn:E;
      [| reflexivity].
    apply alarma_final in E. destruct E as (d & s & _ & _ & Hgt & Hv).
    exfalso. unfold lectura_valida in Hv.
    assert (Hx : exists x, SensorTemperatura.temperatura s = Fin x
                           /\ (x <= 40)%Q).
    { destruct (DispositivoIoT.estado (SensorTemperatura.base s)).
      - destruct Hv as (t & Ht & Hr & _). exists t. split; [assumption |].
        apply Hr.
      - exists 0%Q. split; [assumption |]. unfold Qle. simpl. lia. }
    destruct Hx as (x & Hx & Hx40). rewrite Hx in Hgt.
    destruct u as [q | [|] |]; simpl in Hu.
    - apply gtb_Fin in Hgt.
      apply (Qlt_irrefl q). apply Qlt_le_trans with x; [assumption |].
      now apply Qle_trans with 40%Q.
    - discriminate.
    - discriminate.
    - discriminate. }
  split; [assumption |].
  intros d a Hd Ho He.
  destruct (ciclo_post repr_float dispositivos pausa_seg u ciclo w)
    as (_ & _ & _ & Hl & _).
  rewrite (Hl d a Hd Ho He). now rewrite Ha.
Qed.

(** X9: with a negative threshold the alarm is raised in every cycle over
    a list that holds a temperature sensor, on or off: the 0.0 that a
    sensor stores while it is off counts as a reading above the
    threshold. Without a temperature sensor there is no alarm. *)
Theorem umbral_negativo (q : Q) :
  (q < 0)%Q ->
  (alarma_calor (Fin q) (temperaturas dispositivos (tras (Fin q))) = true
   <-> exists d, In d dispositivos
                 /\ clase_de (objs w d) = CSensorTemperatura).
Proof.
  intros Hq.
  destruct (ciclo_post repr_float dispositivos pausa_seg (Fin q) ciclo w)
    as (_ & Hm & Hs & _).
  rewrite alarma_final. split.
  - intros (d & s & Hd & Ho & _). exists d. split; [assumption |].
    destruct Hm as [Hm _]. destruct (Hm d) as [Hc _].
    rewrite <- Hc, Ho. reflexivity.
  - intros (d & Hd & Hc).
    destruct (objs w d) as [b | s | s | a] eqn:Ho; simpl in Hc;
      try discriminate.
    destruct (marco_temp _ _ _ d s Hm Ho) as (s' & Ho' & _).
    pose proof (Hs d Hd) as Hv. rewrite Ho' in Hv. simpl in Hv.
    exists d, s'. repeat split; try assumption.
    unfold lectura_valida in Hv.
    destruct (DispositivoIoT.estado (SensorTemperatura.base s')).
    + destruct Hv as (t & -> & Hr & _). apply gtb_Fin.
      apply Qlt_le_trans with 0%Q; [assumption |].
      apply Qle_trans with 20%Q; [unfold Qle; simpl; lia | apply Hr].
    + rewrite Hv. now apply gtb_Fin.
Qed.

(** X10: with a threshold from 0 up to, but not including, 20 the alarm is
    raised in a cycle exactly when the list holds a temperature sensor
    that is on: every reading of a powered sensor is above the threshold,
    and a sensor that is off never raises it. *)
Theorem umbral_bajo (q : Q) :
  (0 <= q)%Q -> (q < 20)%Q ->
  (alarma_calor (Fin q) (temperaturas dispositivos (tras (Fin q))) = true
   <-> exists d s, In d dispositivos /\ objs w d = Temp s
                   /\ DispositivoIoT.estado (SensorTemperatura.base s) = true).
Proof.
  intros Hq0 Hq20.
  destruct (ciclo_post repr_float dispositivos pausa_seg (Fin q) ciclo w)
    as (_ & Hm & Hs & _).
  rewrite alarma_final. split.
  - intros (d & s' & Hd & Ho' & Hgt & Hv).
    destruct (marco_temp_inv _ _ _ d s' Hm Ho') as (s & Ho & Hb).
    exists d, s. repeat split; try assumption. rewrite Hb.
    unfold lectura_valida in Hv.
    destruct (DispositivoIoT.estado (SensorTemperatura.base s'));
      [reflexivity |].
    rewrite Hv in Hgt. apply gtb_Fin in Hgt. exfalso.
    apply (Qlt_irrefl q). now apply Qlt_le_trans with 0%Q.
  - intros (d & s & Hd & Ho & He).
    destruct (marco_temp _ _ _ d s Hm Ho) as (s' & Ho' & Hb).
    pose proof (Hs d Hd) as Hv. rewrite Ho' in Hv. simpl in Hv.
    exists d, s'. repeat split; try assumption.
    rewrite Hb, He in Hv. destruct Hv as (t & -> & Hr & _).
    apply gtb_Fin. apply Qlt_le_trans with 20%Q; [assumption | apply Hr].
Qed.

End Umbrales.

Lemma umbral_alto_sin_alarma_witness :
  umbral_alto (Fin 45)
  /\ alarma_calor (Fin 45)
       (temperaturas [0%nat; 1%nat; 2%nat]
          (PyM.estado_final
             (ciclo_monitoreo (fun _ => "") [0%nat; 1%nat; 2%nat] (Fin 0)
                (Fin 45) 1 (mundo_demo true 7)))) = false.
Proof.
  assert (H : umbral_alto (Fin 45)) by (unfold umbral_alto, Qle; simpl; lia).
  split; [exact H |].
  apply (umbral_alto_sin_alarma (fun _ => "") [0%nat; 1%nat; 2%nat] (Fin 0)
           1 (mundo_demo true 7) (Fin 45) H).
Defined.

Lemma umbral_negativo_witness :
  (-5 < 0)%Q
  /\ (alarma_calor (Fin (-5))
        (temperaturas [0%nat; 1%nat; 2%nat]
           (PyM.estado_final
              (ciclo_monitoreo (fun _ => "") [0%nat; 1%nat; 2%nat] (Fin 0)
                 (Fin (-5)) 1 (mundo_demo false 7)))) = true
      <-> exists d, In d [0%nat; 1%nat; 2%nat]
                    /\ clase_de (objs (mundo_demo false 7) d)
                       = CSensorTemperatura).
Proof.
  assert (H : (-5 < 0)%Q) by reflexivity.
  split; [exact H |].
  apply (umbral_negativo (fun _ => "") [0%nat; 1%nat; 2%nat] (Fin 0)
           1 (mundo_demo false 7) (-5) H).
Defined.

Lemma umbral_bajo_witness :
  (0 <= 10)%Q /\ (10 < 20)%Q
  /\ (alarma_calor (Fin 10)
        (temperaturas [0%nat; 1%nat; 2%nat]
           (PyM.estado_final
              (ciclo_monitoreo (fun _ => "") [0%nat; 1%nat; 2%nat] (Fin 0)
                 (Fin 10) 1 (mundo_demo true 7)))) = true
      <-> exists d s, In d [0%nat; 1%nat; 2%nat]
                      /\ objs (mundo_demo true 7) d = Temp s
                      /\ DispositivoIoT.estado (SensorTemperatura.base s)
                         = true).
Proof.
  assert (H0 : (0 <= 10)%Q) by (unfold Qle; simpl; lia).
  assert (H1 : (10 < 20)%Q) by reflexivity.
  split; [exact H0 |]. split; [exact H1 |].
  apply (umbral_bajo (fun _ => "") [0%nat; 1%nat; 2%nat] (Fin 0)
           1 (mundo_demo true 7) 10 H0 H1).
Defined.

(** ** A light actuator through any sequence of calls *)

Lemma valido_entero_en_rango v : valido v = true <-> entero_en_rango v.
Proof.
  unfold valido, entero_en_rango. split.
  - destruct (Builtins.int_de v) as [z |]; [| discriminate].
    intros H. apply andb_true_iff in H. destruct H as [H0 H1].
    exists z. split; [reflexivity |]. lia.
  - intros (z & -> & Hz). apply andb_true_iff. split; lia.
Qed.

Section LlamadasLuz.

Variable repr_float : float -> string.

Lemma llamar_luz_invariante c a :
  entero_en_rango (ActuadorLuz.intensidad a) ->
  let r := llamar_luz repr_float c a in
  PyM.valor r = Normal tt
  /\ DispositivoIoT.id_dispositivo (ActuadorLuz.base (PyM.estado_final r))
     = DispositivoIoT.id_dispositivo (ActuadorLuz.base a)
  /\ entero_en_rango (ActuadorLuz.intensidad (PyM.estado_final r)).
Proof.
  intros Hi. cbv zeta. destruct c as [| | v |]; simpl llamar_luz.
  - destruct a as [[i e] x]. repeat split. exact Hi.
  - destruct a as [[i e] x]. repeat split. exact Hi.
  - split; [apply ajustar_normal |]. rewrite ajustar_estado_final.
    destruct (encendido a && valido v) eqn:E; [| split; auto].
    apply andb_true_iff in E. destruct E as [_ Hv].
    split; [reflexivity |]. simpl. now apply valido_entero_en_rango.
  - destruct a as [[i e] x]. repeat split. exact Hi.
Qed.

(** X11: from its construction on, through any sequence of power
    switches, adjustments with any values and reports, a light actuator
    never raises, keeps its identifier and holds an integer intensity in
    [0, 100]. *)
Theorem actuador_invariante (id : string) (llamadas : list llamada_luz) :
  let r := PyM.for_ llamadas (llamar_luz repr_float)
             (ActuadorLuz.__init__ id) in
  PyM.valor r = Normal tt
  /\ DispositivoIoT.id_dispositivo (ActuadorLuz.base (PyM.estado_final r)) = id
  /\ entero_en_rango (ActuadorLuz.intensidad (PyM.estado_final r)).
Proof.
  cbv zeta.
  assert (H : forall a,
            entero_en_rango (ActuadorLuz.intensidad a) ->
            let r := PyM.for_ llamadas (llamar_luz repr_float) a in
            PyM.valor r = Normal tt
            /\ DispositivoIoT.id_dispositivo
                 (ActuadorLuz.base (PyM.estado_final r))
               = DispositivoIoT.id_dispositivo (ActuadorLuz.base a)
            /\ entero_en_rango (ActuadorLuz.intensidad (PyM.estado_final r))).
  { induction llamadas as [| c cs IH]; intros a Ha; cbv zeta;
      simpl PyM.for_.
    - repeat split. exact Ha.
    - destruct (llamar_luz_invariante c a Ha) as (Hv & Hid & Hin).
      destruct (llamar_luz repr_float c a) as [[r1 a1] o1] eqn:E.
      unfold PyM.valor, PyM.estado_final in Hv, Hid, Hin.
      cbn [fst snd] in Hv, Hid, Hin. subst r1.
      rewrite (bind_normal _ _ _ _ _ _ E).
      destruct (IH a1 Hin) as (Hv2 & Hid2 & Hin2).
      unfold PyM.valor, PyM.estado_final in *. cbn [fst snd].
      repeat split; try assumption. congruence. }
  apply (H (ActuadorLuz.__init__ id)).
  exists 0. split; [reflexivity | lia].
Qed.

(** X12: on an actuator that is on, of two adjustments in a row the
    second decides if its value is valid, whatever the first was, and
    otherwise changes nothing of what the first left; in particular an
    adjustment repeated is an adjustment made once. *)
Theorem ajustar_dos_veces (a : ActuadorLuz.t) (v1 v2 : pyval) :
  encendido a = true ->
  let ajustar := ActuadorLuz.ajustar_intensidad repr_float in
  PyM.estado_final (ajustar v2 (PyM.estado_final (ajustar v1 a)))
  = (if valido v2 then PyM.estado_final (ajustar v2 a)
     else PyM.estado_final (ajustar v1 a))
  /\ PyM.estado_final (ajustar v1 (PyM.estado_final (ajustar v1 a)))
     = PyM.estado_final (ajustar v1 a).
Proof.
  intros He. cbv zeta. rewrite !ajustar_estado_final. rewrite He. simpl.
  assert (He1 : forall v, encendido (ActuadorLuz.set_intensidad v a) = true)
    by (intros v; exact He).
  split.
  - destruct (valido v1), (valido v2); rewrite ?He1, ?He; reflexivity.
  - destruct (valido v1) eqn:E; rewrite ?He1, ?He, ?E; reflexivity.
Qed.

End LlamadasLuz.

Lemma ajustar_dos_veces_witness :
  encendido (luz_sala true (PyInt 0)) = true
  /\ PyM.estado_final
       (ActuadorLuz.ajustar_intensidad (fun _ => "") (PyInt 20)
          (PyM.estado_final
             (ActuadorLuz.ajustar_intensidad (fun _ => "") (PyInt 80)
                (luz_sala true (PyInt 0)))))
     = luz_sala true (PyInt 20).
Proof.
  split; [reflexivity |].
  rewrite (proj1 (ajustar_dos_veces (fun _ => "") (luz_sala true (PyInt 0))
                    (PyInt 80) (PyInt 20) eq_refl)).
  reflexivity.
Defined.

(** ** A temperature sensor through any sequence of calls *)

Lemma lectura_valida_dominio e v :
  lectura_valida 20 40 e v -> temperatura_en_dominio v.
Proof.
  unfold lectura_valida, temperatura_en_dominio. destruct e.
  - intros (t & Ht & Hr & _). right. now exists t.
  - intros ->. now left.
Qed.

Section LlamadasSensor.

Variable repr_float : float -> string.

Lemma llamar_sensor_invariante c (g : Random.rng) s :
  temperatura_en_dominio (SensorTemperatura.temperatura s) ->
  let r := llamar_sensor repr_float c (g, s) in
  PyM.valor r = Normal tt
  /\ DispositivoIoT.id_dispositivo
       (SensorTemperatura.base (snd (PyM.estado_final r)))
     = DispositivoIoT.id_dispositivo (SensorTemperatura.base s)
  /\ temperatura_en_dominio
       (SensorTemperatura.temperatura (snd (PyM.estado_final r))).
Proof.
  intros Hi. cbv zeta. destruct c; simpl llamar_sensor.
  - destruct s as [[i e] x]. repeat split. exact Hi.
  - destruct s as [[i e] x]. repeat split. exact Hi.
  - destruct (leer_temperatura_post g s) as (v & Hl & Hv). cbv zeta in Hl.
    rewrite (bind_normal _ _ _ _ _ _ Hl).
    unfold PyM.valor, PyM.estado_final, PyM.ret. cbn [fst snd].
    repeat split. simpl. now apply lectura_valida_dominio in Hv.
  - destruct s as [[i e] x]. repeat split. exact Hi.
Qed.

(** X13: from its construction on, through any sequence of power
    switches, readings and reports and whatever the generator draws, a
    temperature sensor never raises, keeps its identifier and stores
    either 0.0 or a value in [20, 40]. *)
Theorem sensor_invariante
  (id : string) (llamadas : list llamada_sensor) (g : Random.rng) :
  let r := PyM.for_ llamadas (llamar_sensor repr_float)
             (g, SensorTemperatura.__init__ id) in
  PyM.valor r = Normal tt
  /\ DispositivoIoT.id_dispositivo
       (SensorTemperatura.base (snd (PyM.estado_final r))) = id
  /\ temperatura_en_dominio
       (SensorTemperatura.temperatura (snd (PyM.estado_final r))).
Proof.
  cbv zeta.
  assert (H : forall (g0 : Random.rng) s,
            temperatura_en_dominio (SensorTemperatura.temperatura s) ->
            let r := PyM.for_ llamadas (llamar_sensor repr_float) (g0, s) in
            PyM.valor r = Normal tt
            /\ DispositivoIoT.id_dispositivo
                 (SensorTemperatura.base (snd (PyM.estado_final r)))
               = DispositivoIoT.id_dispositivo (SensorTemperatura.base s)
            /\ temperatura_en_dominio
                 (SensorTemperatura.temperatura (snd (PyM.estado_final r)))).
  { induction llamadas as [| c cs IH]; intros g0 s Hs; cbv zeta;
      simpl PyM.for_.
    - repeat split. exact Hs.
    - destruct (llamar_sensor_invariante c g0 s Hs) as (Hv & Hid & Hin).
      destruct (llamar_sensor repr_float c (g0, s)) as [[r1 [g1 s1]] o1] eqn:E.
      unfold PyM.valor, PyM.estado_final in Hv, Hid, Hin.
      cbn [fst snd] in Hv, Hid, Hin. subst r1.
      rewrite (bind_normal _ _ _ _ _ _ E).
      destruct (IH g1 s1 Hin) as (Hv2 & Hid2 & Hin2).
      unfold PyM.valor, PyM.estado_final in *. cbn [fst snd].
      repeat split; try assumption. congruence. }
  apply (H g (SensorTemperatura.__init__ id)). now left.
Qed.

End LlamadasSensor.

(** X14: switching a sensor off does not clear its reading. After a
    reading taken while on, [apagar] leaves the sensor off with that
    reading still stored; only the next reading, taken while off, puts
    0.0 in its place. *)
Theorem lectura_persistente (g : Random.rng) (s : SensorTemperatura.t) :
  let s1 := PyM.estado_final
              (SensorTemperatura.super DispositivoIoT.encender s) in
  let r := SensorTemperatura.leer_temperatura (g, s1) in
  let s3 := PyM.estado_final
              (SensorTemperatura.super DispositivoIoT.apagar
                 (snd (PyM.estado_final r))) in
  let r' := SensorTemperatura.leer_temperatura (fst (PyM.estado_final r), s3) in
  exists t,
    PyM.valor r = Normal (Fin t) /\ (20 <= t <= 40)%Q
    /\ DispositivoIoT.estado (SensorTemperatura.base s3) = false
    /\ SensorTemperatura.temperatura s3 = Fin t
    /\ PyM.valor r' = Normal (Fin 0)
    /\ SensorTemperatura.temperatura (snd (PyM.estado_final r')) = Fin 0.
Proof.
  cbv zeta. destruct s as [[i e] x].
  set (s1 := PyM.estado_final
               (SensorTemperatura.super DispositivoIoT.encender
                  {| SensorTemperatura.base :=
                       {| DispositivoIoT.id_dispositivo := i;
                          DispositivoIoT.estado := e |};
                     SensorTemperatura.temperatura := x |})).
  destruct (leer_temperatura_post g s1) as (v & Hl & Hv). cbv zeta in Hl.
  assert (He : DispositivoIoT.estado (SensorTemperatura.base s1) = true)
    by reflexivity.
  rewrite He in Hl, Hv. rewrite Hl.
  destruct Hv as (t & -> & Hr & _). exists t.
  unfold PyM.valor at 1. unfold PyM.estado_final at 1 2 3 4. cbn [fst snd].
  split; [reflexivity |]. split; [assumption |].
  split; [reflexivity |]. split; [reflexivity |].
  rewrite leer_temperatura_apagado by reflexivity.
  split; reflexivity.
Qed.

(** ** The script *)

Lemma marco_temp_encendido ds w w' d id x :
  marco ds w w' -> objs w d = temp_encendido id x ->
  sensor_leido (objs w' d) ->
  exists t, objs w' d = temp_encendido id (Fin t) /\ (20 <= t <= 40)%Q.
Proof.
  intros [H _] Ho Hs. destruct (H d) as [Hc Hb]. rewrite Ho in Hc, Hb.
  destruct (objs w' d) as [b | [b y] | s | a]; simpl in Hc; try discriminate.
  simpl in Hb, Hs. subst b. simpl in Hs. destruct Hs as (t & -> & Hr & _).
  now exists t.
Qed.

Lemma marco_hum_encendido ds w w' d id x :
  marco ds w w' -> objs w d = hum_encendido id x ->
  sensor_leido (objs w' d) ->
  exists h, objs w' d = hum_encendido id (Fin h) /\ (30 <= h <= 90)%Q.
Proof.
  intros [H _] Ho Hs. destruct (H d) as [Hc Hb]. rewrite Ho in Hc, Hb.
  destruct (objs w' d) as [b | s | [b y] | a]; simpl in Hc; try discriminate.
  simpl in Hb, Hs. subst b. simpl in Hs. destruct Hs as (t & -> & Hr & _).
  now exists t.
Qed.

Lemma marco_luz_encendida ds w w' d id x :
  marco ds w w' -> objs w d = luz_encendida id x ->
  exists a, objs w' d = Luz a /\ encendido a = true
            /\ Luz a = luz_encendida id (ActuadorLuz.intensidad a).
Proof.
  intros [H _] Ho. destruct (H d) as [Hc Hb]. rewrite Ho in Hc, Hb.
  destruct (objs w' d) as [b | s | s | [b y]]; simpl in Hc; try discriminate.
  simpl in Hb. subst b. eexists. repeat split.
Qed.

Section Guion.

Variable repr_float : float -> string.
Variable seed : Z -> Random.rng.
Variable w : mundo.

Lemma preparar_spec :
  exists w0 out,
    preparar seed w = (Normal [temp1; temp2; hum1; luz1; luz2], w0, out)
    /\ (forall i, azar w0 i = seed 42 i)
    /\ objs w0 temp1 = temp_encendido "TempSensor_01" (Fin 0)
    /\ objs w0 temp2 = temp_encendido "TempSensor_02" (Fin 0)
    /\ objs w0 hum1 = hum_encendido "HumSensor_01" (Fin 0)
    /\ objs w0 luz1 = luz_encendida "Luz_Sala" (PyInt 0)
    /\ objs w0 luz2 = luz_encendida "Luz_Cocina" (PyInt 0).
Proof.
  eexists. eexists. split; [reflexivity |]. repeat split.
Qed.

(** X15: the script, for any words the seeded generator hands out: it
    ends normally; the five devices are on under the names they were
    created with; each temperature sensor holds a reading in [20, 40] and
    the humidity sensor one in [30, 90]; both lights are at the same
    intensity, 80 if one of the two final temperatures is above 30 and 20
    if not; and fifteen numbers have been drawn, three in each of the five
    cycles. *)
Theorem main_resultado :
  let r := main repr_float seed w in
  let wf := PyM.estado_final r in
  exists t1 t2 h,
    PyM.valor r = Normal tt
    /\ (20 <= t1 <= 40)%Q /\ (20 <= t2 <= 40)%Q /\ (30 <= h <= 90)%Q
    /\ objs wf temp1 = temp_encendido "TempSensor_01" (Fin t1)
    /\ objs wf temp2 = temp_encendido "TempSensor_02" (Fin t2)
    /\ objs wf hum1 = hum_encendido "HumSensor_01" (Fin h)
    /\ (let i := PyInt (if Float.gtb (Fin t1) (Fin 30)
                            || Float.gtb (Fin t2) (Fin 30)
                         then 80 else 20) in
        objs wf luz1 = luz_encendida "Luz_Sala" i
        /\ objs wf luz2 = luz_encendida "Luz_Cocina" i)
    /\ (forall n, azar wf n = seed 42 (n + 15)%nat).
Proof.
  cbv zeta.
  destruct preparar_spec as (w0 & out & Hp & Hg0 & H0 & H1 & H2 & H3 & H4).
  set (ds := [temp1; temp2; hum1; luz1; luz2]) in *.
  assert (Hmain :
    PyM.valor (main repr_float seed w)
    = PyM.valor
        (simulacion_monitoreo repr_float ds 5 (Fin (3 # 2)) (Fin 30) w0)
    /\ PyM.estado_final (main repr_float seed w)
       = PyM.estado_final
           (simulacion_monitoreo repr_float ds 5 (Fin (3 # 2)) (Fin 30) w0)).
  { unfold main. rewrite (bind_normal _ _ _ _ _ _ Hp). split; reflexivity. }
  destruct Hmain as [-> ->].
  assert (Hq : (0 <= 3 # 2)%Q) by (unfold Qle; simpl; lia).
  rewrite simulacion_valor, simulacion_estado.
  change (range1 5) with (map (fun i => Z.of_nat i) (seq 1 5)).
  destruct (bucle_post repr_float ds (Fin 30) (3 # 2) 5 w0 Hq)
    as (Hv & Hm & Hg).
  destruct (bucle_ultimo repr_float ds (Fin 30) (3 # 2) 4 w0 Hq)
    as (w1 & _ & Hu).
  set (wf := PyM.estado_final
               (PyM.for_ (map (fun i => Z.of_nat i) (seq 1 5))
                  (ciclo_monitoreo repr_float ds (Fin (3 # 2)) (Fin 30)) w0))
    in *.
  destruct (ciclo_post repr_float ds (Fin (3 # 2)) (Fin 30) (Z.of_nat 5) w1)
    as (_ & _ & Hs & Hl & _).
  rewrite <- Hu in Hs, Hl.
  destruct (marco_temp_encendido ds w0 wf temp1 _ _ Hm H0)
    as (t1 & E0 & R0); [apply Hs; simpl; auto |].
  destruct (marco_temp_encendido ds w0 wf temp2 _ _ Hm H1)
    as (t2 & E1 & R1); [apply Hs; simpl; auto |].
  destruct (marco_hum_encendido ds w0 wf hum1 _ _ Hm H2)
    as (h & E2 & R2); [apply Hs; simpl; auto |].
  destruct (marco_luz_encendida ds w0 wf luz1 _ _ Hm H3)
    as (a3 & E3 & On3 & F3).
  destruct (marco_luz_encendida ds w0 wf luz2 _ _ Hm H4)
    as (a4 & E4 & On4 & F4).
  assert (Ht : temperaturas ds wf = [Fin t1; Fin t2]).
  { unfold temperaturas, ds. simpl flat_map.
    rewrite E0, E1, E2, E3, E4. reflexivity. }
  rewrite Ht in Hl.
  assert (Ha : alarma_calor (Fin 30) [Fin t1; Fin t2]
               = Float.gtb (Fin t1) (Fin 30) || Float.gtb (Fin t2) (Fin 30)).
  { unfold alarma_calor. simpl existsb. now rewrite orb_false_r. }
  rewrite Ha in Hl.
  exists t1, t2, h.
  split; [exact Hv |]. split; [exact R0 |]. split; [exact R1 |].
  split; [assumption |]. split; [assumption |]. split; [assumption |].
  split; [assumption |]. split; [split |].
  - rewrite E3, F3. f_equal.
    apply (Hl luz1 a3); [unfold ds; simpl; tauto | |]; assumption.
  - rewrite E4, F4. f_equal.
    apply (Hl luz2 a4); [unfold ds; simpl; tauto | |]; assumption.
  - intros n. rewrite Hg.
    assert (Hlec : lecturas ds w0 = 3%nat).
    { unfold lecturas, ds. simpl filter. rewrite H0, H1, H2, H3, H4.
      reflexivity. }
    rewrite Hlec. unfold avanzar. now rewrite Hg0.
Qed.

End Guion.

(** ** The order of the list *)

(** X16: the order of the list matters to the decision, because the
    sensors draw from one generator in list order. With the temperature
    sensor read first it gets the high draw and the light ends the cycle at
    80; with the humidity sensor read first the temperature sensor gets the
    low draw and the same light ends at 20. *)
Theorem orden_de_lectura_decide :
  let tras ds :=
    PyM.estado_final
      (ciclo_monitoreo (fun _ => "") ds (Fin 0) (Fin 30) 1 mundo_alto_bajo) in
  Permutation [0%nat; 1%nat; 2%nat] [1%nat; 0%nat; 2%nat]
  /\ intensidad_de (objs (tras [0%nat; 1%nat; 2%nat]) 2%nat)
     = Some (PyInt 80)
  /\ intensidad_de (objs (tras [1%nat; 0%nat; 2%nat]) 2%nat)
     = Some (PyInt 20).
Proof.
  cbv zeta. split; [apply perm_swap |].
  split; vm_compute; reflexivity.
Qed.

Section Orden.

Variable repr_float : float -> string.

(** X17: once the readings are taken the order no longer matters: for two
    orderings of the same list the alarm is the same, and the phase that
    sets the lights leaves the same object behind every reference. *)
Theorem decision_sin_orden
  (ds ds' : list ref) (umbral_temp : float) (w : mundo) :
  Permutation ds ds' ->
  alarma_calor umbral_temp (temperaturas ds w)
  = alarma_calor umbral_temp (temperaturas ds' w)
  /\ (forall al r,
        objs (PyM.estado_final (PyM.for_ ds (ajustar_luz repr_float al) w)) r
        = objs (PyM.estado_final
                  (PyM.for_ ds' (ajustar_luz repr_float al) w)) r).
Proof.
  intros Hp. split.
  - assert (H : forall l l', Permutation l l' ->
              alarma_calor umbral_temp (temperaturas l w) = true ->
              alarma_calor umbral_temp (temperaturas l' w) = true).
    { intros l l' Hl. unfold alarma_calor. rewrite !existsb_exists.
      intros (t & Ht & Hgt). exists t. split; [| assumption].
      apply temperaturas_In in Ht. destruct Ht as (d & s & Hd & Ho & Hs).
      apply temperaturas_In. exists d, s. split; [| now split].
      now apply (Permutation_in _ Hl). }
    destruct (alarma_calor umbral_temp (temperaturas ds w)) eqn:E1;
      destruct (alarma_calor umbral_temp (temperaturas ds' w)) eqn:E2;
      try reflexivity.
    + rewrite (H ds ds' Hp E1) in E2. discriminate.
    + rewrite (H ds' ds (Permutation_sym Hp) E2) in E1. discriminate.
  - intros al r.
    destruct (ajustar_luces_spec repr_float al ds w) as (_ & _ & Hi & Hn).
    destruct (ajustar_luces_spec repr_float al ds' w) as (_ & _ & Hi' & Hn').
    destruct (in_dec Nat.eq_dec r ds) as [Hr | Hr].
    + rewrite (Hi r Hr), (Hi' r (Permutation_in _ Hp Hr)). reflexivity.
    + rewrite (Hn r Hr), Hn'; [reflexivity |].
      intros Hr'. apply Hr. now apply (Permutation_in _ (Permutation_sym Hp)).
Qed.

End Orden.

Lemma decision_sin_orden_witness :
  Permutation [0%nat; 1%nat; 2%nat] [2%nat; 0%nat; 1%nat]
  /\ alarma_calor (Fin 30) (temperaturas [0%nat; 1%nat; 2%nat]
                              (mundo_demo true 7))
     = alarma_calor (Fin 30) (temperaturas [2%nat; 0%nat; 1%nat]
                                (mundo_demo true 7)).
Proof.
  assert (H : Permutation [0%nat; 1%nat; 2%nat] [2%nat; 0%nat; 1%nat]).
  { apply Permutation_sym. apply (Permutation_cons_app [0%nat; 1%nat] []).
    apply Permutation_refl. }
  split; [exact H |].
  apply (decision_sin_orden (fun _ => "") [0%nat; 1%nat; 2%nat]
           [2%nat; 0%nat; 1%nat] (Fin 30) (mundo_demo true 7) H).
Defined.
